(** * cert-manager-webhook-bunny: the DNS-01 solver of [main.go]

    A shallow embedding of the solver: the Go functions [loadConfig],
    [getAccessKeyFromSecret], [newAPIClient], [hasTXTRecord],
    [resolveZoneId], [Present] and [CleanUp] become functions in a small
    state-and-error monad.  The state is the outside world (the cluster's
    secret store and the remote DNS provider) together with the trace of
    the calls the solver has issued so far.

    Conventions.
    - Go strings are byte strings: [String.string].
    - [int], [int32] and [int64] values are [Z]; the only arithmetic in
      the program is the [i++] of the page counter, an [int32], whose
      wrap-around is [int32_incr].
    - An [error] is its message.  A Go result [(v, nil)] is [Ok v], a
      result [(_, err)] is [Err err].
    - The pointer-typed fields of the bunny-go payloads ([*int64],
      [*string], [*bool]) are modelled by the values they point to: the
      provider's decoded answers populate them.
    - The page loop of [resolveZoneId] has no bound in the source; the
      embedding runs it on a budget of iterations and answers [OutOfFuel]
      when the budget is spent. *)

From Stdlib Require Import ZArith List String Ascii Bool Lia.
From stdpp Require Import base option gmap strings.
Import ListNotations.

Local Open Scope string_scope.
Local Open Scope list_scope.
Local Open Scope Z_scope.

(** ** Go's [strings] package *)

Module strings.

(** [len(s) >= len(suffix) && s[len(s)-len(suffix):] == suffix] *)
Definition HasSuffix (s suffix : string) : bool :=
  (String.length suffix <=? String.length s)%nat
  && String.eqb
       (substring (String.length s - String.length suffix)
                  (String.length suffix) s)
       suffix.

(** [if HasSuffix(s, suffix) { return s[:len(s)-len(suffix)] }; return s] *)
Definition TrimSuffix (s suffix : string) : string :=
  if HasSuffix s suffix
  then substring 0 (String.length s - String.length suffix) s
  else s.

End strings.

(** ** Data model *)

Definition error := string.

(** [corev1.SecretKeySelector]: the name of the secret and the key inside it. *)
Record SecretKeySelector := {
  ref_Name : string;
  ref_Key : string
}.

(** [corev1.Secret], reduced to its [Data] map. *)
Record Secret := {
  secret_Data : gmap string string
}.

Record bunnyConfig := {
  AccessKeySecretRef : SecretKeySelector
}.

(** [extapi.JSON] *)
Record JSON := {
  Raw : string
}.

(** [v1alpha1.ChallengeRequest], the fields the solver reads. *)
Record ChallengeRequest := {
  ResolvedFQDN : string;
  ResolvedZone : string;
  Key : string;
  ResourceNamespace : string;
  Config : option JSON
}.

(** [bunny.DNSRecord] *)
Record DNSRecord := {
  rec_ID : Z;
  rec_Type : Z;
  rec_TTL : Z;
  rec_Value : string;
  rec_Name : string
}.

(** [bunny.DNSZone] *)
Record DNSZone := {
  zone_ID : Z;
  zone_Domain : string;
  zone_Records : list DNSRecord
}.

(** [bunny.DNSZones], one page of the zone listing. *)
Record DNSZones := {
  Items : list DNSZone;
  HasMoreItems : bool
}.

(** [bunny.PaginationOptions] *)
Record PaginationOptions := {
  Page : Z;
  PerPage : Z
}.

(** [bunny.AddOrUpdateDNSRecordOptions], the four fields [Present] sets. *)
Record AddOrUpdateDNSRecordOptions := {
  opt_Type : Z;
  opt_Value : string;
  opt_Name : string;
  opt_TTL : Z
}.

(** [bunny.Client]: what [bunny.NewClient] is given. *)
Record Client := NewClient {
  client_AccessKey : string
}.

(** ** [int32] arithmetic *)

Definition int32_min : Z := - 2 ^ 31.
Definition int32_max : Z := 2 ^ 31 - 1.

Definition int32_wrap (x : Z) : Z := (x + 2 ^ 31) mod 2 ^ 32 - 2 ^ 31.

(** [i++] on an [int32] *)
Definition int32_incr (i : Z) : Z := int32_wrap (i + 1).

(** ** The outside world and the monad *)

(** What leaves the process: one entry per call to the cluster, to the
    provider, or to the logger. *)
Inductive Call :=
| CallSecretGet (namespace name : string)
| CallList (opts : PaginationOptions)
| CallGet (zoneID : Z)
| CallAddDNSRecord (zoneID : Z) (opts : AddOrUpdateDNSRecordOptions)
| CallDeleteDNSRecord (zoneID recordID : Z)
| CallLog (msg : string).

(** The collaborators of the solver, over a world of type [W]: the JSON
    decoder and the [%q] verb of the Go library, the secret store of the
    cluster, and the four endpoints of the provider that the solver uses.
    Each endpoint answers and moves the world. *)
Class Env (W : Type) := {
  json_Unmarshal : string -> bunnyConfig -> bunnyConfig * option error;
  strconv_Quote : string -> string;
  Secrets_Get : string -> string -> W -> (error + Secret) * W;
  DNSZone_List : Client -> PaginationOptions -> W -> (error + DNSZones) * W;
  DNSZone_Get : Client -> Z -> W -> (error + DNSZone) * W;
  DNSZone_AddDNSRecord :
    Client -> Z -> AddOrUpdateDNSRecordOptions -> W -> (error + DNSRecord) * W;
  DNSZone_DeleteDNSRecord : Client -> Z -> Z -> W -> option error * W
}.

Inductive Outcome (A : Type) : Type :=
| Ok (a : A)
| Err (e : error)
| OutOfFuel.
Arguments Ok {A} a.
Arguments Err {A} e.
Arguments OutOfFuel {A}.

Record St (W : Type) := mkSt {
  world : W;
  trace : list Call
}.
Arguments mkSt {W} world trace.
Arguments world {W} s.
Arguments trace {W} s.

Definition M (W A : Type) : Type := St W -> Outcome A * St W.

Definition ret {W A} (a : A) : M W A := fun s => (Ok a, s).

Definition throw {W A} (e : error) : M W A := fun s => (Err e, s).

Definition out_of_fuel {W A} : M W A := fun s => (OutOfFuel, s).

Definition bind {W A B} (m : M W A) (k : A -> M W B) : M W B :=
  fun s =>
    match m s with
    | (Ok a, s') => k a s'
    | (Err e, s') => (Err e, s')
    | (OutOfFuel, s') => (OutOfFuel, s')
    end.

(** [if err != nil { return fmt.Errorf(prefix + "%v", err) }] *)
Definition with_context {W A} (prefix : string) (m : M W A) : M W A :=
  fun s =>
    match m s with
    | (Err e, s') => (Err (prefix +:+ e), s')
    | r => r
    end.

Notation "x <- m ;; k" := (bind m (fun x => k))
  (at level 100, m at next level, right associativity).

Definition of_sum {A} (r : error + A) : Outcome A :=
  match r with
  | inl e => Err e
  | inr a => Ok a
  end.

Definition of_error (r : option error) : Outcome unit :=
  match r with
  | Some e => Err e
  | None => Ok tt
  end.

Section Solver.

Context {W : Type} `{Env W}.

(** A call to a collaborator: the call is appended to the trace and the
    world moves as the collaborator says. *)
Definition perform {A} (c : Call) (f : W -> Outcome A * W) : M W A :=
  fun s =>
    let '(r, w') := f (world s) in
    (r, mkSt w' (trace s ++ [c])).

Definition lift_sum {A} (f : W -> (error + A) * W) : W -> Outcome A * W :=
  fun w => let '(r, w') := f w in (of_sum r, w').

Definition lift_error (f : W -> option error * W) : W -> Outcome unit * W :=
  fun w => let '(r, w') := f w in (of_error r, w').

Definition secrets_get (namespace name : string) : M W Secret :=
  perform (CallSecretGet namespace name) (lift_sum (Secrets_Get namespace name)).

Definition dnszone_list (client : Client) (opts : PaginationOptions)
  : M W DNSZones :=
  perform (CallList opts) (lift_sum (DNSZone_List client opts)).

Definition dnszone_get (client : Client) (zoneID : Z) : M W DNSZone :=
  perform (CallGet zoneID) (lift_sum (DNSZone_Get client zoneID)).

Definition dnszone_add (client : Client) (zoneID : Z)
    (opts : AddOrUpdateDNSRecordOptions) : M W DNSRecord :=
  perform (CallAddDNSRecord zoneID opts)
          (lift_sum (DNSZone_AddDNSRecord client zoneID opts)).

Definition dnszone_delete (client : Client) (zoneID recordID : Z) : M W unit :=
  perform (CallDeleteDNSRecord zoneID recordID)
          (lift_error (DNSZone_DeleteDNSRecord client zoneID recordID)).

Definition log_Println (msg : string) : M W unit :=
  perform (CallLog msg) (fun w => (Ok tt, w)).

(** ** The solver *)

(** [bunnyConfig{}] *)
Definition zero_bunnyConfig : bunnyConfig :=
  {| AccessKeySecretRef := {| ref_Name := ""; ref_Key := "" |} |}.

Definition loadConfig (cfgJSON : option JSON) : bunnyConfig * option error :=
  let cfg := zero_bunnyConfig in
  match cfgJSON with
  | None => (cfg, None)
  | Some j =>
      match json_Unmarshal (Raw j) cfg with
      | (cfg', Some err) =>
          (cfg', Some ("error decoding solver config: " +:+ err))
      | (cfg', None) => (cfg', None)
      end
  end.

Definition getAccessKeyFromSecret (ref : SecretKeySelector)
    (namespace : string) : M W string :=
  if String.eqb (ref_Name ref) ""
  then throw "undefined access key secret"
  else
    secret <- secrets_get namespace (ref_Name ref) ;;
    match secret_Data secret !! ref_Key ref with
    | None =>
        throw ("key not found " +:+ strconv_Quote (ref_Key ref)
               +:+ " in secret '" +:+ namespace +:+ "/" +:+ ref_Name ref +:+ "'")
    | Some accessKey => ret accessKey
    end.

Definition newAPIClient (ch : ChallengeRequest) : M W Client :=
  match loadConfig (Config ch) with
  | (_, Some err) => throw err
  | (cfg, None) =>
      accessKey <- getAccessKeyFromSecret (AccessKeySecretRef cfg)
                                          (ResourceNamespace ch) ;;
      ret (NewClient accessKey)
  end.

(** The test of the record loop:
    [*record.Type == 3 && *record.Name == name && *record.Value == key] *)
Definition isTXTRecord (name key : string) (record : DNSRecord) : bool :=
  Z.eqb (rec_Type record) 3
  && String.eqb (rec_Name record) name
  && String.eqb (rec_Value record) key.

Definition hasTXTRecord (client : Client) (name key : string) (zoneId : Z)
  : M W (option DNSRecord) :=
  zone <- with_context "error getting zone records: "
                       (dnszone_get client zoneId) ;;
  ret (find (isTXTRecord name key) (zone_Records zone)).

(** The test of the zone loop: [*z.Domain == domain] *)
Definition isZone (domain : string) (z : DNSZone) : bool :=
  String.eqb (zone_Domain z) domain.

(** The loop [for i = 1; ; i++] from its iteration at page [i]. *)
Fixpoint resolveZoneId_from (fuel : nat) (client : Client)
    (zoneName domain : string) (i : Z) : M W Z :=
  match fuel with
  | O => out_of_fuel
  | S fuel' =>
      zones <- dnszone_list client {| Page := i; PerPage := 3 |} ;;
      match find (isZone domain) (Items zones) with
      | Some z => ret (zone_ID z)
      | None =>
          if Bool.eqb (HasMoreItems zones) false
          then throw ("failed to get zone id from zone name: " +:+ zoneName)
          else resolveZoneId_from fuel' client zoneName domain (int32_incr i)
      end
  end.

Definition resolveZoneId (fuel : nat) (client : Client) (zoneName : string)
  : M W Z :=
  let domain := strings.TrimSuffix zoneName "." in
  resolveZoneId_from fuel client zoneName domain 1.

(** [strings.TrimSuffix(strings.TrimSuffix(ch.ResolvedFQDN, ch.ResolvedZone), ".")] *)
Definition recordName (ch : ChallengeRequest) : string :=
  strings.TrimSuffix (strings.TrimSuffix (ResolvedFQDN ch) (ResolvedZone ch)) ".".

Definition Present (fuel : nat) (ch : ChallengeRequest) : M W unit :=
  bunnyClient <- newAPIClient ch ;;
  zoneID <- resolveZoneId fuel bunnyClient (ResolvedZone ch) ;;
  let recordName := recordName ch in
  val <- hasTXTRecord bunnyClient recordName (Key ch) zoneID ;;
  match val with
  | Some _ =>
      _ <- log_Println "TXT record is present, skipping" ;;
      ret tt
  | None =>
      let recordType := 3 in
      let ttl := 120 in
      let record := {| opt_Type := recordType;
                       opt_Value := Key ch;
                       opt_Name := recordName;
                       opt_TTL := ttl |} in
      _ <- with_context "failed to add TXT record: "
                        (dnszone_add bunnyClient zoneID record) ;;
      ret tt
  end.

Definition CleanUp (fuel : nat) (ch : ChallengeRequest) : M W unit :=
  bunnyClient <- newAPIClient ch ;;
  zoneID <- resolveZoneId fuel bunnyClient (ResolvedZone ch) ;;
  let recordName := recordName ch in
  record <- with_context "failed to get zone records: "
              (hasTXTRecord bunnyClient recordName (Key ch) zoneID) ;;
  match record with
  | None => ret tt
  | Some record =>
      with_context "failed to delete TXT record: "
                   (dnszone_delete bunnyClient zoneID (rec_ID record))
  end.

End Solver.

(** ** A reference world

    An in-memory cluster and provider account, used to run the solver: the
    secret store, the access key the account accepts, the zones of the
    account in listing order, and the next record identifier the provider
    hands out.  The listing endpoint cuts the zone list into pages of
    [PerPage] zones; [HasMoreItems] tells whether zones remain after the
    page. *)

Module Provider.

Record t := mk {
  secrets : gmap (string * string) Secret;
  access_key : string;
  zones : list DNSZone;
  next_record_id : Z
}.

Definition unauthorized : error := "401 Unauthorized".
Definition not_found : error := "404 Not Found".

Definition get_secret (namespace name : string) (w : t)
  : (error + Secret) * t :=
  match secrets w !! (namespace, name) with
  | Some s => (inr s, w)
  | None => (inl ("secrets '" +:+ name +:+ "' not found"), w)
  end.

(** The zones of page [page]. *)
Definition page_items (perPage page : Z) (zs : list DNSZone) : list DNSZone :=
  firstn (Z.to_nat perPage) (skipn (Z.to_nat ((page - 1) * perPage)) zs).

Definition list_zones (client : Client) (opts : PaginationOptions) (w : t)
  : (error + DNSZones) * t :=
  if String.eqb (client_AccessKey client) (access_key w)
  then (inr {| Items := page_items (PerPage opts) (Page opts) (zones w);
               HasMoreItems :=
                 Z.ltb (Page opts * PerPage opts)
                       (Z.of_nat (length (zones w))) |},
        w)
  else (inl unauthorized, w).

Definition has_id (zoneID : Z) (z : DNSZone) : bool := Z.eqb (zone_ID z) zoneID.

Definition get_zone (client : Client) (zoneID : Z) (w : t)
  : (error + DNSZone) * t :=
  if String.eqb (client_AccessKey client) (access_key w)
  then match find (has_id zoneID) (zones w) with
       | Some z => (inr z, w)
       | None => (inl not_found, w)
       end
  else (inl unauthorized, w).

(** Rewrites the first zone whose identifier is [zoneID]. *)
Fixpoint update_zone (zoneID : Z) (f : DNSZone -> DNSZone)
    (zs : list DNSZone) : list DNSZone :=
  match zs with
  | [] => []
  | z :: zs' =>
      if has_id zoneID z then f z :: zs' else z :: update_zone zoneID f zs'
  end.

Definition with_records (f : list DNSRecord -> list DNSRecord) (z : DNSZone)
  : DNSZone :=
  {| zone_ID := zone_ID z;
     zone_Domain := zone_Domain z;
     zone_Records := f (zone_Records z) |}.

Definition add_record (client : Client) (zoneID : Z)
    (opts : AddOrUpdateDNSRecordOptions) (w : t) : (error + DNSRecord) * t :=
  if String.eqb (client_AccessKey client) (access_key w)
  then match find (has_id zoneID) (zones w) with
       | Some _ =>
           let r := {| rec_ID := next_record_id w;
                       rec_Type := opt_Type opts;
                       rec_TTL := opt_TTL opts;
                       rec_Value := opt_Value opts;
                       rec_Name := opt_Name opts |} in
           (inr r,
            {| secrets := secrets w;
               access_key := access_key w;
               zones := update_zone zoneID
                          (with_records (fun rs => rs ++ [r])) (zones w);
               next_record_id := next_record_id w + 1 |})
       | None => (inl not_found, w)
       end
  else (inl unauthorized, w).

Definition keep_record (recordID : Z) (r : DNSRecord) : bool :=
  negb (Z.eqb (rec_ID r) recordID).

Definition delete_record (client : Client) (zoneID recordID : Z) (w : t)
  : option error * t :=
  if String.eqb (client_AccessKey client) (access_key w)
  then match find (has_id zoneID) (zones w) with
       | Some z =>
           if existsb (fun r => Z.eqb (rec_ID r) recordID) (zone_Records z)
           then (None,
                 {| secrets := secrets w;
                    access_key := access_key w;
                    zones := update_zone zoneID
                               (with_records (List.filter (keep_record recordID)))
                               (zones w);
                    next_record_id := next_record_id w |})
           else (Some not_found, w)
       | None => (Some not_found, w)
       end
  else (Some unauthorized, w).

Definition dquote : string := String (ascii_of_nat 34) EmptyString.

(** Agrees with [strconv.Quote] on printable ASCII free of quotes and
    backslashes. *)
Definition quote (s : string) : string := dquote +:+ s +:+ dquote.

(** The world runs with a decoder for the configuration blobs: [Some cfg]
    for a blob that decodes, [None] for one that does not. *)
Class Decoder := decode_config : string -> option bunnyConfig.

Definition unmarshal `{Decoder} (raw : string) (cfg : bunnyConfig)
  : bunnyConfig * option error :=
  match decode_config raw with
  | Some cfg' => (cfg', None)
  | None => (cfg, Some "invalid character looking for beginning of value")
  end.

#[global] Instance env `{Decoder} : Env t :=
  {| json_Unmarshal := unmarshal;
     strconv_Quote := quote;
     Secrets_Get := get_secret;
     DNSZone_List := list_zones;
     DNSZone_Get := get_zone;
     DNSZone_AddDNSRecord := add_record;
     DNSZone_DeleteDNSRecord := delete_record |}.

End Provider.

(** ** Accounts with restricted keys

    The reference world behind a key that may read but not change records,
    and behind a key that may list zones and nothing more. *)

Module Degraded.

Definition forbidden : error := "403 Forbidden".

Definition read_only_env `{Provider.Decoder} : Env Provider.t :=
  {| json_Unmarshal := Provider.unmarshal;
     strconv_Quote := Provider.quote;
     Secrets_Get := Provider.get_secret;
     DNSZone_List := Provider.list_zones;
     DNSZone_Get := Provider.get_zone;
     DNSZone_AddDNSRecord := fun _ _ _ w => (inl forbidden, w);
     DNSZone_DeleteDNSRecord := fun _ _ _ w => (Some forbidden, w) |}.

Definition list_only_env `{Provider.Decoder} : Env Provider.t :=
  {| json_Unmarshal := Provider.unmarshal;
     strconv_Quote := Provider.quote;
     Secrets_Get := Provider.get_secret;
     DNSZone_List := Provider.list_zones;
     DNSZone_Get := fun _ _ w => (inl forbidden, w);
     DNSZone_AddDNSRecord := fun _ _ _ w => (inl forbidden, w);
     DNSZone_DeleteDNSRecord := fun _ _ _ w => (Some forbidden, w) |}.

End Degraded.

(** ** A listing that never ends

    A provider whose listing answers every page with no zone and the
    announcement of more items; its other endpoints refuse. *)

Module Endless.

Definition refused : error := "503 Service Unavailable".

Definition env : Env unit :=
  {| json_Unmarshal := fun _ cfg => (cfg, None);
     strconv_Quote := Provider.quote;
     Secrets_Get := fun _ _ w => (inl refused, w);
     DNSZone_List :=
       fun _ _ w => (inr {| Items := []; HasMoreItems := true |}, w);
     DNSZone_Get := fun _ _ w => (inl refused, w);
     DNSZone_AddDNSRecord := fun _ _ _ w => (inl refused, w);
     DNSZone_DeleteDNSRecord := fun _ _ _ w => (Some refused, w) |}.

End Endless.

(** A cluster with one secret and an account with five zones, two pages. *)
Module Example.

Definition config_blob : string :=
  "{" +:+ Provider.quote "apiSecretRef" +:+ ":{"
      +:+ Provider.quote "name" +:+ ":" +:+ Provider.quote "bunny-credentials" +:+ ","
      +:+ Provider.quote "key" +:+ ":" +:+ Provider.quote "api-key" +:+ "}}".

Definition config : bunnyConfig :=
  {| AccessKeySecretRef :=
       {| ref_Name := "bunny-credentials"; ref_Key := "api-key" |} |}.

Definition decode : Provider.Decoder :=
  fun raw => if String.eqb raw config_blob then Some config else None.

Definition zone (id : Z) (domain : string) : DNSZone :=
  {| zone_ID := id; zone_Domain := domain; zone_Records := [] |}.

Definition a_record : DNSRecord :=
  {| rec_ID := 7; rec_Type := 0; rec_TTL := 300;
     rec_Value := "192.0.2.1"; rec_Name := "www" |}.

Definition world0 : Provider.t :=
  {| Provider.secrets :=
       {[ ("cert-manager", "bunny-credentials") :=
            {| secret_Data := {[ "api-key" := "s3cr3t" ]} |} ]};
     Provider.access_key := "s3cr3t";
     Provider.zones :=
       [ zone 11 "example.org"; zone 12 "example.net"; zone 13 "example.io";
         {| zone_ID := 14; zone_Domain := "example.com";
            zone_Records := [a_record] |};
         zone 15 "example.dev" ];
     Provider.next_record_id := 100 |}.

Definition challenge : ChallengeRequest :=
  {| ResolvedFQDN := "_acme-challenge.example.com.";
     ResolvedZone := "example.com.";
     Key := "abc123";
     ResourceNamespace := "cert-manager";
     Config := Some {| Raw := config_blob |} |}.

Definition env : Env Provider.t := @Provider.env decode.

Definition start : St Provider.t := mkSt world0 [].

(** The client that [newAPIClient] builds for [challenge]. *)
Definition client : Client := NewClient "s3cr3t".

(** A client with a key that the account does not accept. *)
Definition stranger : Client := NewClient "guess".

Definition zone_com : DNSZone :=
  {| zone_ID := 14; zone_Domain := "example.com"; zone_Records := [a_record] |}.

(** The zones of [world0] as the listing cuts them. *)
Definition pages : list (list DNSZone) :=
  [ [ zone 11 "example.org"; zone 12 "example.net"; zone 13 "example.io" ];
    [ zone_com; zone 15 "example.dev" ] ].

(** [world0] once the record of [challenge] has been created. *)
Definition world1 : Provider.t :=
  {| Provider.secrets := Provider.secrets world0;
     Provider.access_key := "s3cr3t";
     Provider.zones :=
       [ zone 11 "example.org"; zone 12 "example.net"; zone 13 "example.io";
         {| zone_ID := 14; zone_Domain := "example.com";
            zone_Records :=
              [ a_record;
                {| rec_ID := 100; rec_Type := 3; rec_TTL := 120;
                   rec_Value := "abc123"; rec_Name := "_acme-challenge" |} ] |};
         zone 15 "example.dev" ];
     Provider.next_record_id := 101 |}.

(** A challenge whose name lies outside its zone. *)
Definition stray_challenge : ChallengeRequest :=
  {| ResolvedFQDN := "_acme-challenge.example.org.";
     ResolvedZone := "example.com.";
     Key := "abc123";
     ResourceNamespace := "cert-manager";
     Config := Some {| Raw := config_blob |} |}.

(** A challenge without configuration. *)
Definition bare_challenge : ChallengeRequest :=
  {| ResolvedFQDN := "_acme-challenge.example.com.";
     ResolvedZone := "example.com.";
     Key := "abc123";
     ResourceNamespace := "cert-manager";
     Config := None |}.

(** A challenge whose configuration does not decode. *)
Definition garbled_challenge : ChallengeRequest :=
  {| ResolvedFQDN := "_acme-challenge.example.com.";
     ResolvedZone := "example.com.";
     Key := "abc123";
     ResourceNamespace := "cert-manager";
     Config := Some {| Raw := "apiSecretRef" |} |}.

(** A challenge from a namespace that has no secret. *)
Definition homeless_challenge : ChallengeRequest :=
  {| ResolvedFQDN := "_acme-challenge.example.com.";
     ResolvedZone := "example.com.";
     Key := "abc123";
     ResourceNamespace := "default";
     Config := Some {| Raw := config_blob |} |}.

(** [world0] with the access key stored under another key of the secret. *)
Definition world_misfiled : Provider.t :=
  {| Provider.secrets :=
       {[ ("cert-manager", "bunny-credentials") :=
            {| secret_Data := {[ "token" := "s3cr3t" ]} |} ]};
     Provider.access_key := "s3cr3t";
     Provider.zones := Provider.zones world0;
     Provider.next_record_id := 100 |}.

(** [world1] with a second copy of the record of [challenge]. *)
Definition world2 : Provider.t :=
  {| Provider.secrets := Provider.secrets world0;
     Provider.access_key := "s3cr3t";
     Provider.zones :=
       [ zone 11 "example.org"; zone 12 "example.net"; zone 13 "example.io";
         {| zone_ID := 14; zone_Domain := "example.com";
            zone_Records :=
              [ a_record;
                {| rec_ID := 100; rec_Type := 3; rec_TTL := 120;
                   rec_Value := "abc123"; rec_Name := "_acme-challenge" |};
                {| rec_ID := 101; rec_Type := 3; rec_TTL := 120;
                   rec_Value := "abc123"; rec_Name := "_acme-challenge" |} ] |};
         zone 15 "example.dev" ];
     Provider.next_record_id := 102 |}.

Definition read_only_env : Env Provider.t := @Degraded.read_only_env decode.

Definition list_only_env : Env Provider.t := @Degraded.list_only_env decode.

End Example.

(** ** Vocabulary of the statements *)

(** The options of the request for page [i]. *)
Definition page_opts (i : Z) : PaginationOptions := {| Page := i; PerPage := 3 |}.

(** The requests for the [n] pages [i], [i + 1], ... in that order. *)
Definition page_requests_from (i : Z) (n : nat) : list Call :=
  map (fun j => CallList (page_opts (i + Z.of_nat j))) (seq 0 n).

(** The requests for pages [1 .. n] in that order. *)
Definition page_requests (n : nat) : list Call := page_requests_from 1 n.

(** The record-creation calls of a trace: zone and options of each. *)
Definition creations (t : list Call) : list (Z * AddOrUpdateDNSRecordOptions) :=
  flat_map (fun c => match c with
                     | CallAddDNSRecord zoneID opts => [(zoneID, opts)]
                     | _ => []
                     end) t.

(** The record-deletion calls of a trace: zone and record of each. *)
Definition deletions (t : list Call) : list (Z * Z) :=
  flat_map (fun c => match c with
                     | CallDeleteDNSRecord zoneID recordID => [(zoneID, recordID)]
                     | _ => []
                     end) t.

(** The page requests of a trace: the page number of each. *)
Definition listed_pages (t : list Call) : list Z :=
  flat_map (fun c => match c with
                     | CallList opts => [Page opts]
                     | _ => []
                     end) t.

(** A TXT record with the given name and value. *)
Definition matches (name key : string) (r : DNSRecord) : Prop :=
  rec_Type r = 3 /\ rec_Name r = name /\ rec_Value r = key.

(** The options of the creation call of [Present] for a challenge. *)
Definition txt_options (ch : ChallengeRequest) : AddOrUpdateDNSRecordOptions :=
  {| opt_Type := 3;
     opt_Value := Key ch;
     opt_Name :=
       strings.TrimSuffix
         (strings.TrimSuffix (ResolvedFQDN ch) (ResolvedZone ch)) ".";
     opt_TTL := 120 |}.

(** A stretch of trace without creation or deletion calls. *)
Definition read_only (t : list Call) : Prop :=
  creations t = [] /\ deletions t = [].

Section Vocabulary.

Context {W : Type} `{Env W}.

(** In world [w] the listing answers page [i] with zones none of which is
    the target, announces more items, and leaves the world as it is. *)
Definition continues (client : Client) (domain : string) (w : W) (i : Z) : Prop :=
  exists zs,
    DNSZone_List client (page_opts i) w = (inr zs, w)
    /\ find (isZone domain) (Items zs) = None
    /\ HasMoreItems zs = true.

(** In world [w] the listing of page [i] ends the loop: it fails, or it
    holds the target, or it announces no more items. *)
Definition stops (client : Client) (domain : string) (i : Z) (w : W) : Prop :=
  match fst (DNSZone_List client (page_opts i) w) with
  | inl _ => True
  | inr zs => find (isZone domain) (Items zs) <> None \/ HasMoreItems zs = false
  end.

(** In world [w] the listing serves the zone list partitioned into
    [pages]: page [i] holds the [i]-th part, and more items are announced
    on every page but the last.  An empty partition is served as one empty
    page. *)
Definition serves (client : Client) (w : W) (pages : list (list DNSZone)) : Prop :=
  forall i : nat,
    (1 <= i <= Nat.max 1 (length pages))%nat ->
    DNSZone_List client (page_opts (Z.of_nat i)) w
    = (inr {| Items := nth (i - 1) pages [];
              HasMoreItems := (i <? length pages)%nat |}, w).

(** The listing keeps the worlds of [Inv] within [Inv]. *)
Definition listing_keeps (client : Client) (Inv : W -> Prop) : Prop :=
  forall (i : Z) (w : W),
    Inv w -> Inv (snd (DNSZone_List client (page_opts i) w)).

End Vocabulary.

(** How many increments take the page counter from [i] to [p]. *)
Definition page_distance (p i : Z) : Z := (p - i) mod 2 ^ 32.

(** What the listing shows of a zone. *)
Definition zone_key (z : DNSZone) : Z * string := (zone_ID z, zone_Domain z).

(** Two reference worlds with the same secrets, the same access key and
    the same listing. *)
Definition same_directory (w' w : Provider.t) : Prop :=
  Provider.secrets w' = Provider.secrets w
  /\ Provider.access_key w' = Provider.access_key w
  /\ map zone_key (Provider.zones w') = map zone_key (Provider.zones w).

(** The record that the reference provider creates from the options of a
    challenge. *)
Definition txt_record (ch : ChallengeRequest) (id : Z) : DNSRecord :=
  {| rec_ID := id;
     rec_Type := 3;
     rec_TTL := 120;
     rec_Value := Key ch;
     rec_Name := opt_Name (txt_options ch) |}.

(** What one [Present] creates in a zone: nothing when the zone holds the
    record, the record otherwise. *)
Definition to_create (ch : ChallengeRequest) (zoneID : Z) (zone : DNSZone)
  : list (Z * AddOrUpdateDNSRecordOptions) :=
  match find (isTXTRecord (opt_Name (txt_options ch)) (Key ch))
             (zone_Records zone) with
  | Some _ => []
  | None => [(zoneID, txt_options ch)]
  end.

(** The world after the reference provider has created the record of a
    challenge in a zone. *)
Definition after_add (ch : ChallengeRequest) (zoneID : Z) (w : Provider.t)
  : Provider.t :=
  {| Provider.secrets := Provider.secrets w;
     Provider.access_key := Provider.access_key w;
     Provider.zones :=
       Provider.update_zone zoneID
         (Provider.with_records
            (fun rs => rs ++ [txt_record ch (Provider.next_record_id w)]))
         (Provider.zones w);
     Provider.next_record_id := Provider.next_record_id w + 1 |}.

(** The page numbers of [n] turns of the loop from page [i]. *)
Fixpoint page_walk (i : Z) (n : nat) : list Z :=
  match n with
  | O => []
  | S n' => i :: page_walk (int32_incr i) n'
  end.

(** Two results of the resolver that differ at most in the text of an
    error. *)
Definition same_zone (r1 r2 : Outcome Z) : Prop :=
  match r1, r2 with
  | Ok id1, Ok id2 => id1 = id2
  | Err _, Err _ => True
  | OutOfFuel, OutOfFuel => True
  | _, _ => False
  end.

(** No record of any zone of the account bears the identifier that the
    reference provider hands out next. *)
Definition fresh_id (w : Provider.t) : Prop :=
  forall z r,
    In z (Provider.zones w) -> In r (zone_Records z) ->
    rec_ID r <> Provider.next_record_id w.

(** * Properties *)

(** ** Suffixes *)

Module strings_facts.
Import strings.

Lemma app_cons (c : ascii) (p s : string) :
  String c p +:+ s = String c (p +:+ s).
Proof. reflexivity. Qed.

Lemma length_app (p s : string) :
  String.length (p +:+ s) = (String.length p + String.length s)%nat.
Proof. induction p as [|c p IH]; simpl; [reflexivity | now rewrite IH]. Qed.

Lemma substring_whole (s : string) : substring 0 (String.length s) s = s.
Proof. induction s as [|c s IH]; simpl; [reflexivity | now rewrite IH]. Qed.

Lemma substring_head (p s : string) :
  substring 0 (String.length p) (p +:+ s) = p.
Proof.
  induction p as [|c p IH]; simpl.
  - destruct s; reflexivity.
  - now rewrite IH.
Qed.

Lemma substring_tail (p s : string) :
  substring (String.length p) (String.length s) (p +:+ s) = s.
Proof.
  induction p as [|c p IH]; simpl.
  - apply substring_whole.
  - exact IH.
Qed.

Lemma substring_split (n : nat) (s : string) :
  (n <= String.length s)%nat ->
  s = substring 0 n s +:+ substring n (String.length s - n) s.
Proof.
  revert n; induction s as [|c s IH]; intros [|n] Hn; simpl in *;
    try reflexivity; try lia.
  - now rewrite substring_whole.
  - rewrite app_cons. f_equal. apply IH; lia.
Qed.

(** [HasSuffix] is the suffix relation. *)
Lemma HasSuffix_iff (s suffix : string) :
  HasSuffix s suffix = true <-> exists p, s = p +:+ suffix.
Proof.
  unfold HasSuffix. rewrite andb_true_iff, Nat.leb_le, String.eqb_eq. split.
  - intros [Hlen Hsub].
    exists (substring 0 (String.length s - String.length suffix) s).
    pose proof (substring_split (String.length s - String.length suffix) s
                  ltac:(lia)) as Hs.
    replace (String.length s - (String.length s - String.length suffix))%nat
      with (String.length suffix) in Hs by lia.
    now rewrite Hsub in Hs.
  - intros [p ->]. rewrite length_app. split; [lia|].
    replace (String.length p + String.length suffix - String.length suffix)%nat
      with (String.length p) by lia.
    apply substring_tail.
Qed.

Lemma TrimSuffix_app (p suffix : string) : TrimSuffix (p +:+ suffix) suffix = p.
Proof.
  unfold TrimSuffix.
  assert (HasSuffix (p +:+ suffix) suffix = true) as ->
    by (apply HasSuffix_iff; now exists p).
  rewrite length_app.
  replace (String.length p + String.length suffix - String.length suffix)%nat
    with (String.length p) by lia.
  apply substring_head.
Qed.

Lemma TrimSuffix_other (s suffix : string) :
  HasSuffix s suffix = false -> TrimSuffix s suffix = s.
Proof. unfold TrimSuffix; now intros ->. Qed.

(** [TrimSuffix] removes one occurrence of the suffix, or nothing. *)
Lemma TrimSuffix_cases (s suffix : string) :
  (s = TrimSuffix s suffix +:+ suffix)
  \/ (TrimSuffix s suffix = s /\ forall p, s <> p +:+ suffix).
Proof.
  destruct (HasSuffix s suffix) eqn:E.
  - left. apply HasSuffix_iff in E as [p ->]. now rewrite TrimSuffix_app.
  - right. split; [now apply TrimSuffix_other|].
    intros p ->.
    assert (HasSuffix (p +:+ suffix) suffix = true)
      by (apply HasSuffix_iff; now exists p).
    congruence.
Qed.

End strings_facts.

(** ** The page counter *)

Lemma int32_incr_small (i : Z) :
  int32_min <= i < int32_max -> int32_incr i = i + 1.
Proof.
  unfold int32_min, int32_max, int32_incr, int32_wrap. intros Hi.
  rewrite Z.mod_small; lia.
Qed.

Lemma int32_incr_range (i : Z) : int32_min <= int32_incr i <= int32_max.
Proof.
  unfold int32_min, int32_max, int32_incr, int32_wrap.
  pose proof (Z.mod_pos_bound (i + 1 + 2 ^ 31) (2 ^ 32) ltac:(lia)). lia.
Qed.

Lemma page_requests_from_S (i : Z) (n : nat) :
  page_requests_from i (S n)
  = CallList (page_opts i) :: page_requests_from (i + 1) n.
Proof.
  unfold page_requests_from. cbn [seq map]. rewrite Z.add_0_r. f_equal.
  rewrite <- seq_shift, map_map. apply map_ext. intros j. do 2 f_equal. lia.
Qed.

Lemma page_requests_from_snoc (i : Z) (n : nat) :
  page_requests_from i (S n)
  = page_requests_from i n ++ [CallList (page_opts (i + Z.of_nat n))].
Proof.
  unfold page_requests_from. rewrite seq_S, map_app. reflexivity.
Qed.

Lemma length_page_requests_from (i : Z) (n : nat) :
  length (page_requests_from i n) = n.
Proof. unfold page_requests_from. now rewrite length_map, length_seq. Qed.

Lemma listed_pages_page_requests_from (i : Z) (n : nat) :
  listed_pages (page_requests_from i n)
  = map (fun j => i + Z.of_nat j) (seq 0 n).
Proof.
  unfold page_requests_from, listed_pages.
  induction (seq 0 n) as [|j l IH]; cbn; [reflexivity|now rewrite IH].
Qed.

(** The requests for pages [1 .. n] ask for the page numbers 1, ..., [n]. *)
Lemma listed_pages_page_requests (n : nat) :
  listed_pages (page_requests n) = map Z.of_nat (seq 1 n).
Proof.
  unfold page_requests. rewrite listed_pages_page_requests_from.
  rewrite <- seq_shift, map_map. apply map_ext. intros j. lia.
Qed.

(** ** The zone loop, one iteration at a time *)

Section Loop.

Context {W : Type} `{Env W}.

Variables (client : Client) (zoneName domain : string).

(** One turn of the loop, by the answer of the listing. *)
Lemma loop_step (fuel : nat) (i : Z) (s : St W) :
  resolveZoneId_from (S fuel) client zoneName domain i s =
  let s' w' := mkSt w' (trace s ++ [CallList (page_opts i)]) in
  match DNSZone_List client (page_opts i) (world s) with
  | (inl e, w') => (Err e, s' w')
  | (inr zs, w') =>
      match find (isZone domain) (Items zs) with
      | Some z => (Ok (zone_ID z), s' w')
      | None =>
          if HasMoreItems zs
          then resolveZoneId_from fuel client zoneName domain (int32_incr i) (s' w')
          else (Err ("failed to get zone id from zone name: " +:+ zoneName), s' w')
      end
  end.
Proof.
  cbn [resolveZoneId_from].
  unfold bind, dnszone_list, perform, lift_sum, page_opts.
  destruct (DNSZone_List client {| Page := i; PerPage := 3 |} (world s))
    as [[e|zs] w']; cbn; [reflexivity|].
  destruct (find (isZone domain) (Items zs)); [reflexivity|].
  destruct (HasMoreItems zs); reflexivity.
Qed.

Lemma loop_error (fuel : nat) (i : Z) (s : St W) (e : error) (w' : W) :
  DNSZone_List client (page_opts i) (world s) = (inl e, w') ->
  resolveZoneId_from (S fuel) client zoneName domain i s
  = (Err e, mkSt w' (trace s ++ [CallList (page_opts i)])).
Proof. intros E. now rewrite loop_step, E. Qed.

Lemma loop_found (fuel : nat) (i : Z) (s : St W) (zs : DNSZones) (z : DNSZone)
    (w' : W) :
  DNSZone_List client (page_opts i) (world s) = (inr zs, w') ->
  find (isZone domain) (Items zs) = Some z ->
  resolveZoneId_from (S fuel) client zoneName domain i s
  = (Ok (zone_ID z), mkSt w' (trace s ++ [CallList (page_opts i)])).
Proof. intros E F. now rewrite loop_step, E; cbn; rewrite F. Qed.

Lemma loop_last (fuel : nat) (i : Z) (s : St W) (zs : DNSZones) (w' : W) :
  DNSZone_List client (page_opts i) (world s) = (inr zs, w') ->
  find (isZone domain) (Items zs) = None ->
  HasMoreItems zs = false ->
  resolveZoneId_from (S fuel) client zoneName domain i s
  = (Err ("failed to get zone id from zone name: " +:+ zoneName),
     mkSt w' (trace s ++ [CallList (page_opts i)])).
Proof. intros E F M. now rewrite loop_step, E; cbn; rewrite F, M. Qed.

Lemma loop_next (fuel : nat) (i : Z) (s : St W) (zs : DNSZones) (w' : W) :
  DNSZone_List client (page_opts i) (world s) = (inr zs, w') ->
  find (isZone domain) (Items zs) = None ->
  HasMoreItems zs = true ->
  resolveZoneId_from (S fuel) client zoneName domain i s
  = resolveZoneId_from fuel client zoneName domain (int32_incr i)
      (mkSt w' (trace s ++ [CallList (page_opts i)])).
Proof. intros E F M. now rewrite loop_step, E; cbn; rewrite F, M. Qed.

(** [n] pages in a row that let the loop continue cost [n] turns and
    [n] requests, and leave the loop at the page after them. *)
Lemma loop_skip (n : nat) :
  forall (fuel : nat) (i : Z) (w : W) (t : list Call),
    int32_min <= i ->
    i + Z.of_nat n <= int32_max ->
    (forall j, i <= j < i + Z.of_nat n -> continues client domain w j) ->
    resolveZoneId_from (n + fuel) client zoneName domain i (mkSt w t)
    = resolveZoneId_from fuel client zoneName domain (i + Z.of_nat n)
        (mkSt w (t ++ page_requests_from i n)).
Proof.
  induction n as [|n IH]; intros fuel i w t Hlo Hhi Hcont.
  - cbn. now rewrite Z.add_0_r, app_nil_r.
  - destruct (Hcont i) as (zs & E & F & M); [lia|].
    cbn [Nat.add]. rewrite (loop_next _ _ _ zs w); try assumption.
    rewrite int32_incr_small by lia. cbn [trace].
    rewrite IH; [|lia|lia|intros j Hj; apply Hcont; lia].
    rewrite page_requests_from_S, <- app_assoc. cbn [app].
    replace (i + 1 + Z.of_nat n) with (i + Z.of_nat (S n)) by lia.
    reflexivity.
Qed.

End Loop.

(** ** Searching a list cut into pages *)

Lemma find_app {A} (f : A -> bool) (l1 l2 : list A) :
  find f (l1 ++ l2)
  = match find f l1 with
    | Some x => Some x
    | None => find f l2
    end.
Proof.
  induction l1 as [|a l1 IH]; cbn; [reflexivity|]. now destruct (f a).
Qed.

(** The first hit in the concatenation is the first hit of the first page
    that has one. *)
Lemma find_concat {A} (f : A -> bool) (pages : list (list A)) :
  forall (n : nat) (x : A),
    (forall j, (j < n)%nat -> find f (nth j pages []) = None) ->
    find f (nth n pages []) = Some x ->
    find f (concat pages) = Some x.
Proof.
  induction pages as [|pg pages IH]; intros n x Hbefore Hat.
  - destruct n; discriminate.
  - cbn [concat List.concat]. rewrite find_app. destruct n as [|n].
    + cbn in Hat. now rewrite Hat.
    + specialize (Hbefore 0%nat ltac:(lia)) as H0. cbn in H0. rewrite H0.
      apply (IH n); [|exact Hat].
      intros j Hj. apply (Hbefore (S j)). lia.
Qed.

Lemma isZone_eq (domain : string) (z : DNSZone) :
  isZone domain z = true <-> zone_Domain z = domain.
Proof. unfold isZone. apply String.eqb_eq. Qed.

(** ** The zone resolver over a paged listing *)

Section Resolver.

Context {W : Type} `{Env W}.

Variables (client : Client) (zoneName : string).

Local Abbreviation target := (strings.TrimSuffix zoneName ".").

(** The pages of a served partition that precede a page without the
    target and are not the last let the loop continue. *)
Lemma serves_continues (w : W) (pages : list (list DNSZone)) (n : nat) :
  serves client w pages ->
  (n <= length pages)%nat ->
  (forall j, (j < n - 1)%nat -> find (isZone target) (nth j pages []) = None) ->
  forall j : Z, 1 <= j < Z.of_nat n -> continues client target w j.
Proof.
  intros Hserves Hn Hnone j Hj.
  exists {| Items := nth (Z.to_nat j - 1) pages [];
            HasMoreItems := (Z.to_nat j <? length pages)%nat |}.
  split; [|split]; cbn.
  - specialize (Hserves (Z.to_nat j)).
    rewrite Z2Nat.id in Hserves by lia. apply Hserves. lia.
  - apply Hnone. lia.
  - apply Nat.ltb_lt. lia.
Qed.

(** C1.  When the listing serves a zone list cut into pages and the
    target domain ([zoneName] without its trailing dot) first appears on
    page [k], [resolveZoneId] requests pages [1 .. k] in order, these [k]
    requests and no other, and returns the identifier of the first zone of
    the whole list whose domain equals the target. *)
Theorem resolveZoneId_first_match
    (w : W) (t : list Call) (pages : list (list DNSZone))
    (k fuel : nat) (z : DNSZone) :
  serves client w pages ->
  (1 <= k <= length pages)%nat ->
  Z.of_nat k <= int32_max ->
  (forall j, (j < k - 1)%nat -> find (isZone target) (nth j pages []) = None) ->
  find (isZone target) (nth (k - 1) pages []) = Some z ->
  (k <= fuel)%nat ->
  resolveZoneId fuel client zoneName (mkSt w t)
  = (Ok (zone_ID z), mkSt w (t ++ page_requests k))
  /\ listed_pages (page_requests k) = map Z.of_nat (seq 1 k)
  /\ length (page_requests k) = k
  /\ find (isZone target) (concat pages) = Some z
  /\ zone_Domain z = target.
Proof.
  intros Hserves Hk Hmax Hbefore Hat Hfuel.
  split; [|split; [apply listed_pages_page_requests|split; [|split]]].
  - unfold resolveZoneId.
    replace fuel with ((k - 1) + S (fuel - k))%nat by lia.
    rewrite loop_skip;
      [|unfold int32_min; lia|lia
       |intros j Hj; apply (serves_continues w pages k); auto; lia].
    rewrite (loop_found _ _ _ _ _ _
               {| Items := nth (k - 1) pages [];
                  HasMoreItems := (k <? length pages)%nat |} z w).
    + cbn [trace]. rewrite <- app_assoc. do 3 f_equal.
      unfold page_requests.
      replace k with (S (k - 1)) at 3 by lia.
      now rewrite page_requests_from_snoc.
    + cbn [world]. rewrite <- (Hserves k) by lia. do 2 f_equal. lia.
    + exact Hat.
  - apply length_page_requests_from.
  - now apply (find_concat _ _ (k - 1)%nat).
  - apply isZone_eq. now apply find_some in Hat.
Qed.

(** C6.  When the listing serves a zone list cut into pages none of which
    holds the target, [resolveZoneId] requests every page once, in order,
    and fails with the zone-not-found error after the last one.  A
    partition that is empty, or made of one empty page, costs one request. *)
Theorem resolveZoneId_not_found
    (w : W) (t : list Call) (pages : list (list DNSZone)) (fuel : nat) :
  serves client w pages ->
  Z.of_nat (length pages) <= int32_max ->
  (forall pg, In pg pages -> find (isZone target) pg = None) ->
  (Nat.max 1 (length pages) <= fuel)%nat ->
  resolveZoneId fuel client zoneName (mkSt w t)
  = (Err ("failed to get zone id from zone name: " +:+ zoneName),
     mkSt w (t ++ page_requests (Nat.max 1 (length pages))))
  /\ listed_pages (page_requests (Nat.max 1 (length pages)))
     = map Z.of_nat (seq 1 (Nat.max 1 (length pages)))
  /\ ((length pages <= 1)%nat ->
      page_requests (Nat.max 1 (length pages)) = [CallList (page_opts 1)]).
Proof.
  intros Hserves Hmax Hnone Hfuel.
  set (n := Nat.max 1 (length pages)).
  assert (Hnth : forall j, find (isZone target) (nth j pages []) = None).
  { intros j. destruct (Nat.lt_ge_cases j (length pages)) as [Hj|Hj].
    - apply Hnone, nth_In, Hj.
    - now rewrite nth_overflow. }
  split; [|split].
  - unfold resolveZoneId.
    replace fuel with ((n - 1) + S (fuel - n))%nat by lia.
    rewrite loop_skip; [|unfold int32_min; lia|unfold int32_max in *; lia|].
    + rewrite (loop_last _ _ _ _ _ _
                 {| Items := nth (n - 1) pages [];
                    HasMoreItems := (n <? length pages)%nat |} w).
      * cbn [trace]. rewrite <- app_assoc. do 3 f_equal.
        unfold page_requests.
        replace n with (S (n - 1)) at 3 by lia.
        now rewrite page_requests_from_snoc.
      * cbn [world]. rewrite <- (Hserves n) by lia. do 2 f_equal. lia.
      * apply Hnth.
      * cbn. apply Nat.ltb_ge. lia.
    + intros j Hj. exists {| Items := nth (Z.to_nat j - 1) pages [];
                             HasMoreItems := (Z.to_nat j <? length pages)%nat |}.
      split; [|split]; cbn.
      * specialize (Hserves (Z.to_nat j)).
        rewrite Z2Nat.id in Hserves by lia. apply Hserves. lia.
      * apply Hnth.
      * apply Nat.ltb_lt. lia.
  - apply listed_pages_page_requests.
  - intros Hle. replace n with 1%nat by lia. reflexivity.
Qed.

(** C8.  When the request for page [k] fails, after [k - 1] pages that let
    the loop continue, [resolveZoneId] stops there: its requests are those
    for pages [1 .. k], and its error is the error of the listing, as it
    came.  [Present] and [CleanUp] hand the same error on. *)
Theorem resolveZoneId_list_error
    (w w' : W) (t : list Call) (k fuel : nat) (e : error) :
  (1 <= k)%nat ->
  Z.of_nat k <= int32_max ->
  (forall j, 1 <= j < Z.of_nat k -> continues client target w j) ->
  DNSZone_List client (page_opts (Z.of_nat k)) w = (inl e, w') ->
  (k <= fuel)%nat ->
  resolveZoneId fuel client zoneName (mkSt w t)
  = (Err e, mkSt w' (t ++ page_requests k))
  /\ (forall ch s0,
        ResolvedZone ch = zoneName ->
        newAPIClient ch s0 = (Ok client, mkSt w t) ->
        Present fuel ch s0 = (Err e, mkSt w' (t ++ page_requests k))
        /\ CleanUp fuel ch s0 = (Err e, mkSt w' (t ++ page_requests k))).
Proof.
  intros Hk Hmax Hcont Hfail Hfuel.
  assert (Hres : resolveZoneId fuel client zoneName (mkSt w t)
                 = (Err e, mkSt w' (t ++ page_requests k))).
  { unfold resolveZoneId.
    replace fuel with ((k - 1) + S (fuel - k))%nat by lia.
    rewrite loop_skip;
      [|unfold int32_min; lia|lia|intros j Hj; apply Hcont; lia].
    rewrite (loop_error _ _ _ _ _ _ e w').
    - cbn [trace]. rewrite <- app_assoc. do 3 f_equal.
      unfold page_requests.
      replace k with (S (k - 1)) at 3 by lia.
      now rewrite page_requests_from_snoc.
    - cbn [world]. rewrite <- Hfail. do 2 f_equal. lia. }
  split; [exact Hres|].
  intros ch s0 Hzone Hclient.
  unfold Present, CleanUp, bind. rewrite Hclient, Hzone, Hres. now split.
Qed.

End Resolver.

(** ** Termination of the zone loop *)

Lemma page_distance_zero (p i : Z) :
  int32_min <= p <= int32_max ->
  int32_min <= i <= int32_max ->
  page_distance p i = 0 -> i = p.
Proof.
  unfold page_distance, int32_min, int32_max. intros Hp Hi Hd.
  apply Z.mod_divide in Hd; [|lia]. destruct Hd as [q Hq]. lia.
Qed.

Lemma page_distance_incr (p i : Z) :
  page_distance p i <> 0 ->
  page_distance p (int32_incr i) = page_distance p i - 1.
Proof.
  unfold page_distance, int32_incr, int32_wrap. intros Hd.
  pose proof (Z.mod_pos_bound (p - i) (2 ^ 32) ltac:(lia)) as Hb.
  replace (p - ((i + 1 + 2 ^ 31) mod 2 ^ 32 - 2 ^ 31))
    with ((p - i - 1) + 2 ^ 32 - ((i + 1 + 2 ^ 31) mod 2 ^ 32 - (i + 1 + 2 ^ 31)) - 2 ^ 32)
    by lia.
  rewrite (Z.mod_eq (i + 1 + 2 ^ 31) (2 ^ 32)) by lia.
  replace (p - i - 1 + 2 ^ 32
           - (i + 1 + 2 ^ 31 - 2 ^ 32 * ((i + 1 + 2 ^ 31) / 2 ^ 32)
              - (i + 1 + 2 ^ 31)) - 2 ^ 32)
    with ((p - i - 1) + ((i + 1 + 2 ^ 31) / 2 ^ 32) * 2 ^ 32) by lia.
  rewrite Z.mod_add by lia.
  rewrite <- Zminus_mod_idemp_l.
  apply Z.mod_small. lia.
Qed.

Section Termination.

Context {W : Type} `{Env W}.

Variables (client : Client) (zoneName : string).

Local Abbreviation target := (strings.TrimSuffix zoneName ".").

(** The worlds the loop can be in. *)
Variable Inv : W -> Prop.

(** A listing that never holds the target and always announces more items
    keeps the loop going for as long as it is given turns, one request per
    turn. *)
Lemma loop_diverges :
  (forall i w, Inv w ->
     exists zs w',
       DNSZone_List client (page_opts i) w = (inr zs, w')
       /\ Inv w'
       /\ find (isZone target) (Items zs) = None
       /\ HasMoreItems zs = true) ->
  forall (fuel : nat) (i : Z) (s : St W),
    Inv (world s) ->
    exists s',
      resolveZoneId_from fuel client zoneName target i s = (OutOfFuel, s')
      /\ length (trace s') = (length (trace s) + fuel)%nat.
Proof.
  intros Hmore fuel. induction fuel as [|fuel IH]; intros i s Hs.
  - exists s. split; [reflexivity|lia].
  - destruct (Hmore i (world s) Hs) as (zs & w' & E & Hw' & F & M).
    rewrite (loop_next _ _ _ _ _ _ zs w' E F M).
    destruct (IH (int32_incr i)
                 (mkSt w' (trace s ++ [CallList (page_opts i)])) Hw')
      as (s' & Hrun & Hlen).
    exists s'. split; [exact Hrun|].
    rewrite Hlen. cbn [trace]. rewrite length_app. cbn. lia.
Qed.

(** A page that ends the loop, [n] increments ahead of the counter, is
    reached or forestalled: [n + 1] turns are enough, and more turns
    change nothing. *)
Lemma loop_terminates (p : Z) :
  int32_min <= p <= int32_max ->
  listing_keeps client Inv ->
  (forall w, Inv w -> stops client target p w) ->
  forall (n : nat) (i : Z) (s : St W),
    Inv (world s) ->
    int32_min <= i <= int32_max ->
    page_distance p i = Z.of_nat n ->
    exists r s',
      r <> OutOfFuel
      /\ forall fuel, (n < fuel)%nat ->
           resolveZoneId_from fuel client zoneName target i s = (r, s').
Proof.
  intros Hp Hkeeps Hstops n. induction n as [|n IH]; intros i s Hs Hi Hd.
  - assert (i = p) as -> by (apply page_distance_zero; auto).
    specialize (Hstops (world s) Hs). unfold stops in Hstops.
    destruct (DNSZone_List client (page_opts p) (world s)) as [[e|zs] w'] eqn:E;
      cbn in Hstops.
    + exists (Err e), (mkSt w' (trace s ++ [CallList (page_opts p)])).
      split; [discriminate|].
      intros [|fuel] Hf; [lia|]. now apply loop_error.
    + destruct (find (isZone target) (Items zs)) as [z|] eqn:F.
      * exists (Ok (zone_ID z)), (mkSt w' (trace s ++ [CallList (page_opts p)])).
        split; [discriminate|].
        intros [|fuel] Hf; [lia|]. now apply (loop_found _ _ _ _ _ _ zs).
      * destruct Hstops as [Hfound|Hlast]; [congruence|].
        exists (Err ("failed to get zone id from zone name: " +:+ zoneName)),
               (mkSt w' (trace s ++ [CallList (page_opts p)])).
        split; [discriminate|].
        intros [|fuel] Hf; [lia|]. now apply (loop_last _ _ _ _ _ _ zs).
  - pose proof (Hkeeps i (world s) Hs) as Hw'.
    destruct (DNSZone_List client (page_opts i) (world s)) as [[e|zs] w'] eqn:E.
    + exists (Err e), (mkSt w' (trace s ++ [CallList (page_opts i)])).
      split; [discriminate|].
      intros [|fuel] Hf; [lia|]. now apply loop_error.
    + destruct (find (isZone target) (Items zs)) as [z|] eqn:F.
      * exists (Ok (zone_ID z)), (mkSt w' (trace s ++ [CallList (page_opts i)])).
        split; [discriminate|].
        intros [|fuel] Hf; [lia|]. now apply (loop_found _ _ _ _ _ _ zs).
      * destruct (HasMoreItems zs) eqn:M.
        -- destruct (IH (int32_incr i)
                        (mkSt w' (trace s ++ [CallList (page_opts i)])))
             as (r & s' & Hr & Hrun).
           ++ exact Hw'.
           ++ apply int32_incr_range.
           ++ rewrite page_distance_incr; lia.
           ++ exists r, s'. split; [exact Hr|].
              intros [|fuel] Hf; [lia|].
              rewrite (loop_next _ _ _ _ _ _ zs w' E F M). apply Hrun. lia.
        -- exists (Err ("failed to get zone id from zone name: " +:+ zoneName)),
                  (mkSt w' (trace s ++ [CallList (page_opts i)])).
           split; [discriminate|].
           intros [|fuel] Hf; [lia|]. now apply (loop_last _ _ _ _ _ _ zs).
Qed.

(** C7.  Over the worlds the listing can reach: if every page of the
    listing announces more items and none holds the target,
    [resolveZoneId] does not return: whatever number of turns it is given,
    it uses them all, issuing one request per turn.  Conversely, if some
    page ends the loop (it holds the target, or announces no more items,
    or fails), [resolveZoneId] returns: from some number of turns on, the
    result is the same and is not the exhaustion of the turns. *)
Theorem resolveZoneId_termination :
  ((forall i w, Inv w ->
      exists zs w',
        DNSZone_List client (page_opts i) w = (inr zs, w')
        /\ Inv w'
        /\ find (isZone target) (Items zs) = None
        /\ HasMoreItems zs = true) ->
   forall (fuel : nat) (s : St W),
     Inv (world s) ->
     exists s',
       resolveZoneId fuel client zoneName s = (OutOfFuel, s')
       /\ length (trace s') = (length (trace s) + fuel)%nat)
  /\
  (forall p : Z,
     int32_min <= p <= int32_max ->
     listing_keeps client Inv ->
     (forall w, Inv w -> stops client target p w) ->
     forall s : St W,
       Inv (world s) ->
       exists (enough : nat) (r : Outcome Z) (s' : St W),
         r <> OutOfFuel
         /\ forall fuel, (enough <= fuel)%nat ->
              resolveZoneId fuel client zoneName s = (r, s')).
Proof.
  split.
  - intros Hmore fuel s Hs. now apply (loop_diverges Hmore).
  - intros p Hp Hkeeps Hstops s Hs.
    pose proof (Z.mod_pos_bound (p - 1) (2 ^ 32) ltac:(lia)) as Hb.
    destruct (loop_terminates p Hp Hkeeps Hstops
                (Z.to_nat (page_distance p 1)) 1 s Hs)
      as (r & s' & Hr & Hrun).
    + unfold int32_min, int32_max. lia.
    + unfold page_distance. lia.
    + exists (S (Z.to_nat (page_distance p 1))), r, s'.
      split; [exact Hr|]. intros fuel Hf. apply Hrun. lia.
Qed.

End Termination.

(** ** The record matcher and the two handlers, step by step *)

Lemma isTXTRecord_iff (name key : string) (r : DNSRecord) :
  isTXTRecord name key r = true <-> matches name key r.
Proof.
  unfold isTXTRecord, matches.
  rewrite !andb_true_iff, Z.eqb_eq, !String.eqb_eq. tauto.
Qed.

Lemma creations_app (t1 t2 : list Call) :
  creations (t1 ++ t2) = creations t1 ++ creations t2.
Proof. apply flat_map_app. Qed.

Lemma deletions_app (t1 t2 : list Call) :
  deletions (t1 ++ t2) = deletions t1 ++ deletions t2.
Proof. apply flat_map_app. Qed.

Lemma read_only_app (t1 t2 : list Call) :
  read_only t1 -> read_only t2 -> read_only (t1 ++ t2).
Proof.
  unfold read_only. rewrite creations_app, deletions_app.
  now intros [-> ->] [-> ->].
Qed.

Lemma read_only_nil : read_only [].
Proof. now split. Qed.

Lemma read_only_page_requests_from (i : Z) (n : nat) :
  read_only (page_requests_from i n).
Proof.
  revert i; induction n as [|n IH]; intros i; [apply read_only_nil|].
  rewrite page_requests_from_S.
  apply (read_only_app [_]); [now split|apply IH].
Qed.

Section Handlers.

Context {W : Type} `{Env W}.

Lemma hasTXTRecord_run (client : Client) (name key : string) (zoneId : Z)
    (s : St W) :
  hasTXTRecord client name key zoneId s =
  match DNSZone_Get client zoneId (world s) with
  | (inl e, w') =>
      (Err ("error getting zone records: " +:+ e),
       mkSt w' (trace s ++ [CallGet zoneId]))
  | (inr zone, w') =>
      (Ok (find (isTXTRecord name key) (zone_Records zone)),
       mkSt w' (trace s ++ [CallGet zoneId]))
  end.
Proof.
  unfold hasTXTRecord, bind, with_context, dnszone_get, perform, lift_sum.
  now destruct (DNSZone_Get client zoneId (world s)) as [[e|zone] w'].
Qed.

(** [Present], once the client is built, the zone resolved and the zone
    fetched. *)
Lemma Present_run (fuel : nat) (ch : ChallengeRequest) (s s1 s2 : St W)
    (client : Client) (zoneID : Z) (zone : DNSZone) (w3 : W) :
  newAPIClient ch s = (Ok client, s1) ->
  resolveZoneId fuel client (ResolvedZone ch) s1 = (Ok zoneID, s2) ->
  DNSZone_Get client zoneID (world s2) = (inr zone, w3) ->
  Present fuel ch s =
  match find (isTXTRecord (recordName ch) (Key ch)) (zone_Records zone) with
  | Some _ =>
      (Ok tt,
       mkSt w3 (trace s2 ++ [CallGet zoneID;
                             CallLog "TXT record is present, skipping"]))
  | None =>
      let calls := [CallGet zoneID; CallAddDNSRecord zoneID (txt_options ch)] in
      match DNSZone_AddDNSRecord client zoneID (txt_options ch) w3 with
      | (inl e, w4) =>
          (Err ("failed to add TXT record: " +:+ e), mkSt w4 (trace s2 ++ calls))
      | (inr _, w4) => (Ok tt, mkSt w4 (trace s2 ++ calls))
      end
  end.
Proof.
  intros Hclient Hzone Hget.
  unfold Present, bind. rewrite Hclient, Hzone, hasTXTRecord_run, Hget.
  destruct (find _ _) as [r|].
  - unfold log_Println, perform, ret. cbn. now rewrite <- app_assoc.
  - unfold with_context, dnszone_add, perform, lift_sum, ret. cbn.
    fold (recordName ch). change {| opt_Type := 3; opt_Value := Key ch;
                                    opt_Name := recordName ch; opt_TTL := 120 |}
      with (txt_options ch).
    destruct (DNSZone_AddDNSRecord client zoneID (txt_options ch) w3)
      as [[e|r] w4]; cbn; now rewrite <- app_assoc.
Qed.

(** [CleanUp], once the client is built, the zone resolved and the zone
    fetched. *)
Lemma CleanUp_run (fuel : nat) (ch : ChallengeRequest) (s s1 s2 : St W)
    (client : Client) (zoneID : Z) (zone : DNSZone) (w3 : W) :
  newAPIClient ch s = (Ok client, s1) ->
  resolveZoneId fuel client (ResolvedZone ch) s1 = (Ok zoneID, s2) ->
  DNSZone_Get client zoneID (world s2) = (inr zone, w3) ->
  CleanUp fuel ch s =
  match find (isTXTRecord (recordName ch) (Key ch)) (zone_Records zone) with
  | None => (Ok tt, mkSt w3 (trace s2 ++ [CallGet zoneID]))
  | Some record =>
      let calls := [CallGet zoneID;
                    CallDeleteDNSRecord zoneID (rec_ID record)] in
      match DNSZone_DeleteDNSRecord client zoneID (rec_ID record) w3 with
      | (Some e, w4) =>
          (Err ("failed to delete TXT record: " +:+ e),
           mkSt w4 (trace s2 ++ calls))
      | (None, w4) => (Ok tt, mkSt w4 (trace s2 ++ calls))
      end
  end.
Proof.
  intros Hclient Hzone Hget.
  unfold CleanUp, bind, with_context at 1.
  rewrite Hclient, Hzone, hasTXTRecord_run, Hget.
  destruct (find _ _) as [r|]; [|reflexivity].
  unfold with_context, dnszone_delete, perform, lift_error. cbn.
  destruct (DNSZone_DeleteDNSRecord client zoneID (rec_ID r) w3)
    as [[e|] w4]; cbn; now rewrite <- app_assoc.
Qed.

(** Building the client and resolving the zone create and delete nothing. *)
Lemma newAPIClient_trace (ch : ChallengeRequest) (s s1 : St W)
    (r : Outcome Client) :
  newAPIClient ch s = (r, s1) ->
  exists c, trace s1 = trace s ++ c /\ read_only c.
Proof.
  unfold newAPIClient. destruct (loadConfig (Config ch)) as [cfg [err|]].
  - intros [= <- <-]. exists []. now rewrite app_nil_r.
  - unfold bind, getAccessKeyFromSecret.
    destruct (String.eqb _ _).
    + intros [= <- <-]. exists []. now rewrite app_nil_r.
    + unfold bind, secrets_get, perform, lift_sum.
      destruct (Secrets_Get _ _ _) as [[e|secret] w']; cbn.
      * intros [= <- <-]. now exists [CallSecretGet (ResourceNamespace ch)
                                        (ref_Name (AccessKeySecretRef cfg))].
      * destruct (secret_Data secret !! _); cbn; intros [= <- <-];
          now exists [CallSecretGet (ResourceNamespace ch)
                        (ref_Name (AccessKeySecretRef cfg))].
Qed.

Lemma resolveZoneId_from_trace (client : Client) (zoneName domain : string)
    (fuel : nat) :
  forall (i : Z) (s s' : St W) (r : Outcome Z),
    resolveZoneId_from fuel client zoneName domain i s = (r, s') ->
    exists c, trace s' = trace s ++ c /\ read_only c.
Proof.
  induction fuel as [|fuel IH]; intros i s s' r.
  - intros [= <- <-]. exists []. now rewrite app_nil_r.
  - rewrite loop_step.
    destruct (DNSZone_List client (page_opts i) (world s)) as [[e|zs] w'].
    + intros [= <- <-]. now exists [CallList (page_opts i)].
    + destruct (find (isZone domain) (Items zs)).
      * intros [= <- <-]. now exists [CallList (page_opts i)].
      * destruct (HasMoreItems zs).
        -- intros Hrun. apply IH in Hrun as (c & Htrace & Hc). cbn in Htrace.
           exists (CallList (page_opts i) :: c). split.
           ++ now rewrite Htrace, <- app_assoc.
           ++ now apply (read_only_app [_]).
        -- intros [= <- <-]. now exists [CallList (page_opts i)].
Qed.

Lemma resolveZoneId_trace (client : Client) (zoneName : string) (fuel : nat)
    (s s' : St W) (r : Outcome Z) :
  resolveZoneId fuel client zoneName s = (r, s') ->
  exists c, trace s' = trace s ++ c /\ read_only c.
Proof. apply resolveZoneId_from_trace. Qed.

(** The stretch of trace up to the zone fetch. *)
Lemma lookup_trace (fuel : nat) (ch : ChallengeRequest) (s s1 s2 : St W)
    (client : Client) (zoneID : Z) :
  newAPIClient ch s = (Ok client, s1) ->
  resolveZoneId fuel client (ResolvedZone ch) s1 = (Ok zoneID, s2) ->
  creations (trace s2) = creations (trace s)
  /\ deletions (trace s2) = deletions (trace s).
Proof.
  intros Hclient Hzone.
  apply newAPIClient_trace in Hclient as (c1 & Ht1 & Hc1 & Hd1).
  apply resolveZoneId_trace in Hzone as (c2 & Ht2 & Hc2 & Hd2).
  rewrite Ht2, Ht1.
  rewrite !creations_app, !deletions_app, Hc1, Hc2, Hd1, Hd2.
  now rewrite !app_nil_r.
Qed.

End Handlers.

(** ** The record matcher, the missing configuration, the handlers *)

Section Claims.

Context {W : Type} `{Env W}.

(** C2.  On a zone that the provider returns, [hasTXTRecord] answers without
    error, and answers a record exactly when the zone holds a record of
    type 3 whose name is the target name and whose value is the target
    value.  The record it answers is such a record of the zone: one that
    differs in type, in name or in value is never answered.  With no such
    record in the zone the answer is the absence of a record. *)
Theorem hasTXTRecord_exact_match
    (client : Client) (name key : string) (zoneId : Z) (s : St W)
    (zone : DNSZone) (w' : W) :
  DNSZone_Get client zoneId (world s) = (inr zone, w') ->
  exists result : option DNSRecord,
    hasTXTRecord client name key zoneId s
    = (Ok result, mkSt w' (trace s ++ [CallGet zoneId]))
    /\ ((exists r, result = Some r)
        <-> (exists r, In r (zone_Records zone) /\ matches name key r))
    /\ (forall r, result = Some r ->
          In r (zone_Records zone) /\ matches name key r)
    /\ (forall r,
          rec_Type r <> 3 \/ rec_Name r <> name \/ rec_Value r <> key ->
          result <> Some r)
    /\ (result = None
        <-> forall r, In r (zone_Records zone) -> ~ matches name key r).
Proof.
  intros Hget.
  exists (find (isTXTRecord name key) (zone_Records zone)).
  assert (Hsome : forall r,
             find (isTXTRecord name key) (zone_Records zone) = Some r ->
             In r (zone_Records zone) /\ matches name key r).
  { intros r Hr. apply find_some in Hr as [Hin Hr].
    now apply isTXTRecord_iff in Hr. }
  assert (Hnone : find (isTXTRecord name key) (zone_Records zone) = None
                  <-> forall r, In r (zone_Records zone) -> ~ matches name key r).
  { split.
    - intros Hf r Hin Hm. apply isTXTRecord_iff in Hm.
      pose proof (find_none _ _ Hf r Hin). congruence.
    - intros Hno. destruct (find _ _) as [r|] eqn:Hf; [|reflexivity].
      destruct (Hsome r eq_refl) as [Hin Hm]. now destruct (Hno r Hin). }
  split; [|split; [|split; [|split]]].
  - now rewrite hasTXTRecord_run, Hget.
  - split.
    + intros [r Hr]. exists r. now apply Hsome.
    + intros (r & Hin & Hm).
      destruct (find _ _) as [r'|] eqn:Hf; [now exists r'|].
      destruct (proj1 Hnone eq_refl r Hin Hm).
  - exact Hsome.
  - intros r Hdiff Hr. apply Hsome in Hr as [_ (Ht & Hn & Hv)]. tauto.
  - exact Hnone.
Qed.

(** C10.  A challenge without configuration loads the zero configuration
    without error; [Present] and [CleanUp] then fail on the empty secret
    name, with the error "undefined access key secret", before any call
    leaves the process. *)
Theorem nil_config_undefined_secret (ch : ChallengeRequest) :
  Config ch = None ->
  loadConfig (Config ch) = (zero_bunnyConfig, None)
  /\ forall (fuel : nat) (s : St W),
       newAPIClient ch s = (Err "undefined access key secret", s)
       /\ Present fuel ch s = (Err "undefined access key secret", s)
       /\ CleanUp fuel ch s = (Err "undefined access key secret", s).
Proof.
  intros Hnil.
  assert (Hclient : forall s : St W,
             newAPIClient ch s = (Err "undefined access key secret", s)).
  { intros s. unfold newAPIClient. now rewrite Hnil. }
  split; [now rewrite Hnil|].
  intros fuel s. split; [apply Hclient|].
  unfold Present, CleanUp, bind. now rewrite Hclient.
Qed.

(** C4.  Once the client is built, the zone resolved and the zone fetched:
    if no record of the zone is a TXT record with the derived name and the
    challenge key, [CleanUp] succeeds and issues no delete call; if some
    record is, [CleanUp] issues one delete call, for the zone and the
    identifier of the first such record, and succeeds or fails as that
    call does. *)
Theorem CleanUp_idempotent
    (fuel : nat) (ch : ChallengeRequest) (s s1 s2 : St W)
    (client : Client) (zoneID : Z) (zone : DNSZone) (w3 : W) :
  newAPIClient ch s = (Ok client, s1) ->
  resolveZoneId fuel client (ResolvedZone ch) s1 = (Ok zoneID, s2) ->
  DNSZone_Get client zoneID (world s2) = (inr zone, w3) ->
  ((forall r, In r (zone_Records zone) ->
              ~ matches (recordName ch) (Key ch) r) ->
   exists s',
     CleanUp fuel ch s = (Ok tt, s')
     /\ world s' = w3
     /\ deletions (trace s') = deletions (trace s))
  /\
  ((exists r, In r (zone_Records zone) /\ matches (recordName ch) (Key ch) r) ->
   exists r d s',
     In r (zone_Records zone)
     /\ matches (recordName ch) (Key ch) r
     /\ DNSZone_DeleteDNSRecord client zoneID (rec_ID r) w3 = (d, world s')
     /\ CleanUp fuel ch s
        = (match d with
           | None => Ok tt
           | Some e => Err ("failed to delete TXT record: " +:+ e)
           end, s')
     /\ deletions (trace s') = deletions (trace s) ++ [(zoneID, rec_ID r)]).
Proof.
  intros Hclient Hzone Hget.
  destruct (lookup_trace _ _ _ _ _ _ _ Hclient Hzone) as [_ Hdel].
  pose proof (CleanUp_run fuel ch s s1 s2 client zoneID zone w3
                Hclient Hzone Hget) as Hrun.
  split.
  - intros Hclean.
    destruct (find _ _) as [r|] eqn:Hf.
    + apply find_some in Hf as [Hin Hm]. apply isTXTRecord_iff in Hm.
      now destruct (Hclean r Hin).
    + eexists. split; [exact Hrun|]. split; [reflexivity|].
      cbn [trace]. rewrite deletions_app, Hdel. cbn. apply app_nil_r.
  - intros (r0 & Hin0 & Hm0).
    destruct (find _ _) as [r|] eqn:Hf.
    + apply find_some in Hf as [Hin Hm]. apply isTXTRecord_iff in Hm.
      cbn zeta in Hrun.
      destruct (DNSZone_DeleteDNSRecord client zoneID (rec_ID r) w3)
        as [d w4] eqn:Hd.
      exists r, d, (mkSt w4 (trace s2 ++ [CallGet zoneID;
                                          CallDeleteDNSRecord zoneID (rec_ID r)])).
      split; [exact Hin|]. split; [exact Hm|]. split; [exact Hd|].
      split; [now destruct d|].
      cbn [trace]. now rewrite deletions_app, Hdel.
    + apply isTXTRecord_iff in Hm0.
      pose proof (find_none _ _ Hf r0 Hin0). congruence.
Qed.

(** C9.  When the fully-qualified name does not end with the zone, the
    record name that [Present] and [CleanUp] derive is the whole
    fully-qualified name less one trailing dot, if it has one.  Both go on
    with that name: once the client is built, the zone resolved and the
    zone fetched, they look that name up, [Present] creates the record
    under that name when the lookup finds nothing, and [CleanUp] deletes
    what the lookup finds. *)
Theorem recordName_outside_zone
    (fuel : nat) (ch : ChallengeRequest) (s s1 s2 : St W)
    (client : Client) (zoneID : Z) (zone : DNSZone) (w3 : W) :
  (forall p, ResolvedFQDN ch <> p +:+ ResolvedZone ch) ->
  newAPIClient ch s = (Ok client, s1) ->
  resolveZoneId fuel client (ResolvedZone ch) s1 = (Ok zoneID, s2) ->
  DNSZone_Get client zoneID (world s2) = (inr zone, w3) ->
  let name := strings.TrimSuffix (ResolvedFQDN ch) "." in
  let record := {| opt_Type := 3; opt_Value := Key ch;
                   opt_Name := name; opt_TTL := 120 |} in
  recordName ch = name
  /\ (ResolvedFQDN ch = name +:+ "."
      \/ (name = ResolvedFQDN ch /\ forall p, ResolvedFQDN ch <> p +:+ "."))
  /\ Present fuel ch s
     = match find (isTXTRecord name (Key ch)) (zone_Records zone) with
       | Some _ =>
           (Ok tt,
            mkSt w3 (trace s2 ++ [CallGet zoneID;
                                  CallLog "TXT record is present, skipping"]))
       | None =>
           let calls := [CallGet zoneID; CallAddDNSRecord zoneID record] in
           match DNSZone_AddDNSRecord client zoneID record w3 with
           | (inl e, w4) =>
               (Err ("failed to add TXT record: " +:+ e),
                mkSt w4 (trace s2 ++ calls))
           | (inr _, w4) => (Ok tt, mkSt w4 (trace s2 ++ calls))
           end
       end
  /\ CleanUp fuel ch s
     = match find (isTXTRecord name (Key ch)) (zone_Records zone) with
       | None => (Ok tt, mkSt w3 (trace s2 ++ [CallGet zoneID]))
       | Some r =>
           let calls := [CallGet zoneID;
                         CallDeleteDNSRecord zoneID (rec_ID r)] in
           match DNSZone_DeleteDNSRecord client zoneID (rec_ID r) w3 with
           | (Some e, w4) =>
               (Err ("failed to delete TXT record: " +:+ e),
                mkSt w4 (trace s2 ++ calls))
           | (None, w4) => (Ok tt, mkSt w4 (trace s2 ++ calls))
           end
       end.
Proof.
  intros Hout Hclient Hzone Hget name record.
  assert (Hname : recordName ch = name).
  { unfold recordName, name. f_equal.
    apply strings_facts.TrimSuffix_other.
    destruct (strings.HasSuffix (ResolvedFQDN ch) (ResolvedZone ch)) eqn:E;
      [|reflexivity].
    apply strings_facts.HasSuffix_iff in E as [p Hp]. now destruct (Hout p). }
  split; [exact Hname|]. split; [|split].
  - destruct (strings_facts.TrimSuffix_cases (ResolvedFQDN ch) ".")
      as [Hdot|[Hsame Hnodot]]; [now left|right].
    split; [exact Hsame|exact Hnodot].
  - rewrite (Present_run fuel ch s s1 s2 client zoneID zone w3) by assumption.
    unfold txt_options. fold (recordName ch). now rewrite Hname.
  - rewrite (CleanUp_run fuel ch s s1 s2 client zoneID zone w3) by assumption.
    now rewrite Hname.
Qed.

End Claims.

(** ** The handlers on the reference world *)

Lemma find_isZone_key (domain : string) (l l' : list DNSZone) :
  map zone_key l = map zone_key l' ->
  option_map zone_ID (find (isZone domain) l)
  = option_map zone_ID (find (isZone domain) l').
Proof.
  revert l'; induction l as [|z l IH]; intros [|z' l'] Hmap;
    try discriminate; [reflexivity|].
  cbn in Hmap. injection Hmap as Hid Hdom Hl.
  cbn. unfold isZone at 1 3. rewrite Hdom.
  destruct (String.eqb (zone_Domain z') domain); cbn;
    [now rewrite Hid|now apply IH].
Qed.

Lemma page_items_key (perPage page : Z) (l l' : list DNSZone) :
  map zone_key l = map zone_key l' ->
  map zone_key (Provider.page_items perPage page l)
  = map zone_key (Provider.page_items perPage page l').
Proof.
  intros Hmap. unfold Provider.page_items.
  now rewrite <- !firstn_map, <- !skipn_map, Hmap.
Qed.

Lemma update_zone_key (zoneID : Z) (f : list DNSRecord -> list DNSRecord)
    (zs : list DNSZone) :
  map zone_key (Provider.update_zone zoneID (Provider.with_records f) zs)
  = map zone_key zs.
Proof.
  induction zs as [|z zs IH]; [reflexivity|]. cbn.
  destruct (Provider.has_id zoneID z); cbn; [reflexivity|now rewrite IH].
Qed.

Lemma find_update_zone (zoneID : Z) (f : list DNSRecord -> list DNSRecord)
    (zs : list DNSZone) (z : DNSZone) :
  find (Provider.has_id zoneID) zs = Some z ->
  find (Provider.has_id zoneID)
       (Provider.update_zone zoneID (Provider.with_records f) zs)
  = Some (Provider.with_records f z).
Proof.
  induction zs as [|z0 zs IH]; [discriminate|]. cbn.
  destruct (Provider.has_id zoneID z0) eqn:E.
  - intros [= ->]. cbn. unfold Provider.has_id in *. cbn. now rewrite E.
  - intros Hf. cbn. rewrite E. now apply IH.
Qed.

Section OnProvider.

Context `{Provider.Decoder}.

(** Building the client reads the secret store and nothing else. *)
Lemma provider_newAPIClient (ch : ChallengeRequest) (w : Provider.t)
    (t : list Call) (r : Outcome Client) (s1 : St Provider.t) :
  newAPIClient ch (mkSt w t) = (r, s1) ->
  exists c,
    s1 = mkSt w (t ++ c)
    /\ forall w' t',
         Provider.secrets w' = Provider.secrets w ->
         newAPIClient ch (mkSt w' t') = (r, mkSt w' (t' ++ c)).
Proof.
  unfold newAPIClient. destruct (loadConfig (Config ch)) as [cfg [err|]].
  - intros [= <- <-]. exists []. rewrite app_nil_r. split; [reflexivity|].
    intros w' t' _. now rewrite app_nil_r.
  - unfold bind, getAccessKeyFromSecret.
    destruct (String.eqb _ _).
    + intros [= <- <-]. exists []. rewrite app_nil_r. split; [reflexivity|].
      intros w' t' _. now rewrite app_nil_r.
    + unfold bind, secrets_get, perform, lift_sum. cbn.
      unfold Provider.get_secret.
      destruct (Provider.secrets w !! _) as [secret|] eqn:Hs; cbn.
      * destruct (secret_Data secret !! _) eqn:Hk; cbn; intros [= <- <-];
          eexists; (split; [reflexivity|]);
          intros w' t' ->; rewrite Hs; cbn; now rewrite Hk.
      * intros [= <- <-]. eexists. split; [reflexivity|].
        intros w' t' ->. now rewrite Hs.
Qed.

(** Resolving the zone reads the access key and what the listing shows of
    the zones, and nothing else. *)
Lemma provider_resolve (client : Client) (zoneName domain : string)
    (fuel : nat) :
  forall (i : Z) (w : Provider.t) (t : list Call) (r : Outcome Z)
         (s' : St Provider.t),
    resolveZoneId_from fuel client zoneName domain i (mkSt w t) = (r, s') ->
    exists c,
      s' = mkSt w (t ++ c)
      /\ forall w' t',
           Provider.access_key w' = Provider.access_key w ->
           map zone_key (Provider.zones w') = map zone_key (Provider.zones w) ->
           resolveZoneId_from fuel client zoneName domain i (mkSt w' t')
           = (r, mkSt w' (t' ++ c)).
Proof.
  induction fuel as [|fuel IH]; intros i w t r s'.
  - intros [= <- <-]. exists []. rewrite app_nil_r. split; [reflexivity|].
    intros w' t' _ _. cbn. unfold out_of_fuel. now rewrite app_nil_r.
  - rewrite loop_step. cbn -[resolveZoneId_from].
    unfold Provider.list_zones. cbn -[resolveZoneId_from].
    destruct (String.eqb (client_AccessKey client) (Provider.access_key w))
      eqn:Hkey; cbn -[resolveZoneId_from].
    + destruct (find (isZone domain)
                     (Provider.page_items 3 i (Provider.zones w)))
        as [z|] eqn:Hfind.
      * intros [= <- <-]. eexists. split; [reflexivity|].
        intros w' t' Hk Hz. rewrite loop_step. cbn. unfold Provider.list_zones.
        rewrite Hk, Hkey. cbn.
        pose proof (find_isZone_key domain _ _
                      (page_items_key 3 i _ _ Hz)) as Hsame.
        rewrite Hfind in Hsame.
        destruct (find (isZone domain)
                       (Provider.page_items 3 i (Provider.zones w')))
          as [z'|]; cbn in Hsame; [|discriminate].
        now injection Hsame as ->.
      * destruct (Z.ltb (i * 3) (Z.of_nat (length (Provider.zones w))))
          eqn:Hmore.
        -- intros Hrun. apply IH in Hrun as (c & -> & Hsame).
           exists (CallList (page_opts i) :: c). split.
           ++ now rewrite <- app_assoc.
           ++ intros w' t' Hk Hz. rewrite loop_step. cbn -[resolveZoneId_from].
              unfold Provider.list_zones. rewrite Hk, Hkey.
              cbn -[resolveZoneId_from].
              pose proof (find_isZone_key domain _ _
                            (page_items_key 3 i _ _ Hz)) as Hf.
              rewrite Hfind in Hf.
              destruct (find (isZone domain)
                             (Provider.page_items 3 i (Provider.zones w')));
                cbn in Hf; [discriminate|].
              replace (length (Provider.zones w'))
                with (length (Provider.zones w))
                by (rewrite <- (length_map zone_key), <- Hz;
                    apply length_map).
              rewrite Hmore, Hsame by assumption.
              now rewrite <- app_assoc.
        -- intros [= <- <-]. eexists. split; [reflexivity|].
           intros w' t' Hk Hz. rewrite loop_step. cbn.
           unfold Provider.list_zones. rewrite Hk, Hkey. cbn.
           pose proof (find_isZone_key domain _ _
                         (page_items_key 3 i _ _ Hz)) as Hf.
           rewrite Hfind in Hf.
           destruct (find (isZone domain)
                          (Provider.page_items 3 i (Provider.zones w')));
             cbn in Hf; [discriminate|].
           replace (length (Provider.zones w'))
             with (length (Provider.zones w))
             by (rewrite <- (length_map zone_key), <- Hz; apply length_map).
           now rewrite Hmore.
    + intros [= <- <-]. eexists. split; [reflexivity|].
      intros w' t' Hk Hz. rewrite loop_step. cbn. unfold Provider.list_zones.
      now rewrite Hk, Hkey.
Qed.

End OnProvider.

(** The first hit of a list, located on its page of three. *)
Lemma find_paged {A} (f : A -> bool) (n : nat) :
  forall (zs : list A) (z : A),
    (length zs <= n)%nat ->
    find f zs = Some z ->
    exists k : nat,
      (1 <= k)%nat
      /\ (3 * (k - 1) < length zs)%nat
      /\ (forall j, (1 <= j < k)%nat ->
            find f (firstn 3 (skipn (3 * (j - 1)) zs)) = None)
      /\ find f (firstn 3 (skipn (3 * (k - 1)) zs)) = Some z.
Proof.
  induction n as [|n IH]; intros zs z Hlen Hfind.
  - destruct zs; [discriminate|cbn in Hlen; lia].
  - rewrite <- (firstn_skipn 3 zs), find_app in Hfind.
    destruct (find f (firstn 3 zs)) as [x|] eqn:Hhead.
    + injection Hfind as ->. exists 1%nat.
      split; [lia|]. split; [|split].
      * destruct zs; [discriminate|cbn; lia].
      * intros j Hj. lia.
      * exact Hhead.
    + assert (Hne : (3 < length zs)%nat).
      { destruct (Nat.lt_ge_cases 3 (length zs)) as [Hl|Hl]; [exact Hl|].
        rewrite skipn_all2 in Hfind by exact Hl. discriminate. }
      destruct (IH (skipn 3 zs) z) as (k & Hk & Hin & Hbefore & Hat).
      * rewrite length_skipn. lia.
      * exact Hfind.
      * rewrite length_skipn in Hin.
        exists (S k). split; [lia|]. split; [lia|]. split.
        -- intros j Hj. destruct (Nat.eq_dec j 1%nat) as [->|Hj1].
           ++ exact Hhead.
           ++ specialize (Hbefore (j - 1)%nat). rewrite skipn_skipn in Hbefore.
              assert (Hj' : (1 <= j - 1 < k)%nat) by lia.
              specialize (Hbefore Hj').
              now replace (3 * (j - 1 - 1) + 3)%nat
                with (3 * (j - 1))%nat in Hbefore by lia.
        -- rewrite skipn_skipn in Hat.
           now replace (3 * (k - 1) + 3)%nat
             with (3 * (S k - 1))%nat in Hat by lia.
Qed.

Lemma page_items_nat (j : nat) (zs : list DNSZone) :
  (1 <= j)%nat ->
  Provider.page_items 3 (Z.of_nat j) zs = firstn 3 (skipn (3 * (j - 1)) zs).
Proof.
  intros Hj. unfold Provider.page_items.
  replace (Z.to_nat ((Z.of_nat j - 1) * 3)) with (3 * (j - 1))%nat by lia.
  reflexivity.
Qed.

Section OnProviderHandlers.

Context `{Provider.Decoder}.

(** On the reference world the resolver finds the first zone of the
    account whose domain is the target, given turns for every page. *)
Lemma provider_resolve_found (client : Client) (zoneName domain : string)
    (w : Provider.t) (t : list Call) (fuel : nat) (z : DNSZone) :
  client_AccessKey client = Provider.access_key w ->
  find (isZone domain) (Provider.zones w) = Some z ->
  (length (Provider.zones w) <= 3 * fuel)%nat ->
  Z.of_nat (length (Provider.zones w)) <= 3 * int32_max ->
  exists k : nat,
    (1 <= k)%nat
    /\ resolveZoneId_from fuel client zoneName domain 1 (mkSt w t)
       = (Ok (zone_ID z), mkSt w (t ++ page_requests k)).
Proof.
  intros Hkey Hfind Hfuel Hmax.
  destruct (find_paged (isZone domain) (length (Provider.zones w))
              (Provider.zones w) z (Nat.le_refl _) Hfind)
    as (k & Hk & Hin & Hbefore & Hat).
  exists k. split; [exact Hk|].
  assert (Hlist : forall j : nat, (1 <= j)%nat ->
            DNSZone_List client (page_opts (Z.of_nat j)) w
            = (inr {| Items := firstn 3 (skipn (3 * (j - 1)) (Provider.zones w));
                      HasMoreItems :=
                        Z.ltb (Z.of_nat j * 3)
                              (Z.of_nat (length (Provider.zones w))) |}, w)).
  { intros j Hj. cbn. unfold Provider.list_zones.
    rewrite Hkey, String.eqb_refl. cbn. now rewrite page_items_nat. }
  replace fuel with ((k - 1) + S (fuel - k))%nat by lia.
  rewrite loop_skip; [|unfold int32_min; lia|lia|].
  - rewrite (loop_found _ _ _ _ _ _
               {| Items := firstn 3 (skipn (3 * (k - 1)) (Provider.zones w));
                  HasMoreItems :=
                    Z.ltb (Z.of_nat k * 3)
                          (Z.of_nat (length (Provider.zones w))) |} z w).
    + cbn [trace]. rewrite <- app_assoc. do 3 f_equal.
      unfold page_requests.
      replace k with (S (k - 1)) at 3 by lia.
      now rewrite page_requests_from_snoc.
    + cbn [world]. rewrite <- (Hlist k Hk). do 2 f_equal. lia.
    + exact Hat.
  - intros j Hj.
    exists {| Items := firstn 3 (skipn (3 * (Z.to_nat j - 1)) (Provider.zones w));
              HasMoreItems :=
                Z.ltb (Z.of_nat (Z.to_nat j) * 3)
                      (Z.of_nat (length (Provider.zones w))) |}.
    split; [|split]; cbn [Items HasMoreItems].
    + rewrite <- (Hlist (Z.to_nat j)) by lia. now rewrite Z2Nat.id by lia.
    + apply Hbefore. lia.
    + apply Z.ltb_lt. lia.
Qed.

End OnProviderHandlers.

Section HandlersInversion.

Context {W : Type} `{Env W}.

(** A successful [Present] has built the client, resolved the zone and
    fetched it. *)
Lemma Present_ok_inv (fuel : nat) (ch : ChallengeRequest) (s s' : St W) :
  Present fuel ch s = (Ok tt, s') ->
  exists client s1 zoneID s2 zone w3,
    newAPIClient ch s = (Ok client, s1)
    /\ resolveZoneId fuel client (ResolvedZone ch) s1 = (Ok zoneID, s2)
    /\ DNSZone_Get client zoneID (world s2) = (inr zone, w3).
Proof.
  unfold Present, bind.
  destruct (newAPIClient ch s) as [[client|e|] s1] eqn:Hclient;
    try discriminate.
  destruct (resolveZoneId fuel client (ResolvedZone ch) s1)
    as [[zoneID|e|] s2] eqn:Hzone; try discriminate.
  rewrite hasTXTRecord_run.
  destruct (DNSZone_Get client zoneID (world s2)) as [[e|zone] w3] eqn:Hget;
    [discriminate|].
  intros _. now exists client, s1, zoneID, s2, zone, w3.
Qed.

(** [Present] on a zone that holds the record: success, and no creation. *)
Lemma Present_skips (fuel : nat) (ch : ChallengeRequest) (s s1 s2 : St W)
    (client : Client) (zoneID : Z) (zone : DNSZone) (w3 : W) :
  newAPIClient ch s = (Ok client, s1) ->
  resolveZoneId fuel client (ResolvedZone ch) s1 = (Ok zoneID, s2) ->
  DNSZone_Get client zoneID (world s2) = (inr zone, w3) ->
  (exists r, In r (zone_Records zone) /\ matches (recordName ch) (Key ch) r) ->
  Present fuel ch s
  = (Ok tt, mkSt w3 (trace s2 ++ [CallGet zoneID;
                                  CallLog "TXT record is present, skipping"]))
  /\ creations (trace s2 ++ [CallGet zoneID;
                             CallLog "TXT record is present, skipping"])
     = creations (trace s).
Proof.
  intros Hclient Hzone Hget (r & Hin & Hm).
  destruct (lookup_trace _ _ _ _ _ _ _ Hclient Hzone) as [Hcre _].
  rewrite (Present_run fuel ch s s1 s2 client zoneID zone w3) by assumption.
  destruct (find _ _) eqn:Hf.
  - split; [reflexivity|]. rewrite creations_app, Hcre. cbn. apply app_nil_r.
  - apply isTXTRecord_iff in Hm.
    pose proof (find_none _ _ Hf r Hin). congruence.
Qed.

End HandlersInversion.

Lemma same_directory_refl (w : Provider.t) : same_directory w w.
Proof. now repeat split. Qed.

Lemma isTXTRecord_txt_record (ch : ChallengeRequest) (id : Z) :
  isTXTRecord (opt_Name (txt_options ch)) (Key ch) (txt_record ch id) = true.
Proof.
  apply isTXTRecord_iff. now repeat split.
Qed.

Lemma find_snoc {A} (f : A -> bool) (l : list A) (x : A) :
  find f l = None -> f x = true -> find f (l ++ [x]) = Some x.
Proof. intros Hl Hx. rewrite find_app, Hl. cbn. now rewrite Hx. Qed.

Lemma filter_snoc_length {A} (f : A -> bool) (l : list A) (x : A) :
  f x = true ->
  length (List.filter f (l ++ [x])) = S (length (List.filter f l)).
Proof.
  intros Hx. rewrite List.filter_app, length_app. cbn. rewrite Hx. cbn. lia.
Qed.

Section OnProviderLookup.

Context `{Provider.Decoder}.

(** Building the client and resolving the zone leave the reference world
    as it is, and go the same way in any world with the same directory. *)
Lemma provider_lookup (fuel : nat) (ch : ChallengeRequest) (w : Provider.t)
    (t : list Call) (client : Client) (s1 s2 : St Provider.t) (zoneID : Z) :
  newAPIClient ch (mkSt w t) = (Ok client, s1) ->
  resolveZoneId fuel client (ResolvedZone ch) s1 = (Ok zoneID, s2) ->
  exists c1 c2,
    s1 = mkSt w (t ++ c1)
    /\ s2 = mkSt w (t ++ c1 ++ c2)
    /\ read_only c1
    /\ read_only c2
    /\ forall w' t',
         same_directory w' w ->
         newAPIClient ch (mkSt w' t') = (Ok client, mkSt w' (t' ++ c1))
         /\ resolveZoneId fuel client (ResolvedZone ch) (mkSt w' (t' ++ c1))
            = (Ok zoneID, mkSt w' (t' ++ c1 ++ c2)).
Proof.
  intros Hclient Hzone.
  destruct (newAPIClient_trace _ _ _ _ Hclient) as (d1 & Hd1 & Hr1).
  destruct (resolveZoneId_trace _ _ _ _ _ _ Hzone) as (d2 & Hd2 & Hr2).
  apply provider_newAPIClient in Hclient as (c1 & -> & Hsame1).
  apply provider_resolve in Hzone as (c2 & -> & Hsame2).
  cbn [trace] in Hd1, Hd2.
  apply app_inv_head in Hd1. apply app_inv_head in Hd2. subst d1 d2.
  exists c1, c2. split; [reflexivity|]. split; [now rewrite <- app_assoc|].
  split; [exact Hr1|]. split; [exact Hr2|].
  intros w' t' (Hs & Hk & Hz). split; [now apply Hsame1|].
  unfold resolveZoneId. rewrite (Hsame2 w' (t' ++ c1) Hk Hz).
  now rewrite <- app_assoc.
Qed.

Lemma provider_get (client : Client) (zoneID : Z) (w w3 : Provider.t)
    (zone : DNSZone) :
  DNSZone_Get client zoneID w = (inr zone, w3) ->
  w3 = w
  /\ String.eqb (client_AccessKey client) (Provider.access_key w) = true
  /\ find (Provider.has_id zoneID) (Provider.zones w) = Some zone.
Proof.
  cbn. unfold Provider.get_zone.
  destruct (String.eqb _ _); [|discriminate].
  destruct (find _ _); [|discriminate].
  now intros [= -> ->].
Qed.

Lemma provider_get_found (client : Client) (zoneID : Z) (w : Provider.t)
    (zone : DNSZone) :
  String.eqb (client_AccessKey client) (Provider.access_key w) = true ->
  find (Provider.has_id zoneID) (Provider.zones w) = Some zone ->
  DNSZone_Get client zoneID w = (inr zone, w).
Proof.
  intros Hkey Hfind. cbn. unfold Provider.get_zone. now rewrite Hkey, Hfind.
Qed.

Lemma provider_add (ch : ChallengeRequest) (client : Client) (zoneID : Z)
    (w : Provider.t) (zone : DNSZone) :
  String.eqb (client_AccessKey client) (Provider.access_key w) = true ->
  find (Provider.has_id zoneID) (Provider.zones w) = Some zone ->
  DNSZone_AddDNSRecord client zoneID (txt_options ch) w
  = (inr (txt_record ch (Provider.next_record_id w)), after_add ch zoneID w).
Proof.
  intros Hkey Hfind. cbn. unfold Provider.add_record.
  now rewrite Hkey, Hfind.
Qed.

Lemma after_add_directory (ch : ChallengeRequest) (zoneID : Z) (w : Provider.t) :
  same_directory (after_add ch zoneID w) w.
Proof.
  split; [reflexivity|]. split; [reflexivity|]. apply update_zone_key.
Qed.

Lemma after_add_zone (ch : ChallengeRequest) (zoneID : Z) (w : Provider.t)
    (zone : DNSZone) :
  find (Provider.has_id zoneID) (Provider.zones w) = Some zone ->
  find (Provider.has_id zoneID) (Provider.zones (after_add ch zoneID w))
  = Some (Provider.with_records
            (fun rs => rs ++ [txt_record ch (Provider.next_record_id w)]) zone).
Proof. apply find_update_zone. Qed.

End OnProviderLookup.

Section OnProviderClaims.

Context `{Provider.Decoder}.

(** The second of two identical calls of [Present], and what the two calls
    have created, on the reference world. *)
Lemma Present_twice (fuel : nat) (ch : ChallengeRequest) (w : Provider.t)
    (t : list Call) (s1 : St Provider.t) :
  Present fuel ch (mkSt w t) = (Ok tt, s1) ->
  exists (s2 : St Provider.t) (zoneID : Z) (zone zone2 : DNSZone),
    Present fuel ch s1 = (Ok tt, s2)
    /\ world s2 = world s1
    /\ creations (trace s2) = creations (trace s1)
    /\ find (Provider.has_id zoneID) (Provider.zones w) = Some zone
    /\ creations (trace s1) = creations t ++ to_create ch zoneID zone
    /\ find (Provider.has_id zoneID) (Provider.zones (world s2)) = Some zone2
    /\ length (List.filter (isTXTRecord (recordName ch) (Key ch))
                           (zone_Records zone2))
       = (length (List.filter (isTXTRecord (recordName ch) (Key ch))
                              (zone_Records zone))
          + length (to_create ch zoneID zone))%nat.
Proof.
  intros Hrun.
  destruct (Present_ok_inv _ _ _ _ Hrun)
    as (client & sa & zoneID & sb & zone & w3 & Hclient & Hzone & Hget).
  destruct (provider_lookup _ _ _ _ _ _ _ _ Hclient Hzone)
    as (c1 & c2 & -> & -> & [Hc1 _] & [Hc2 _] & Hsame).
  cbn [world trace] in *.
  apply provider_get in Hget as Hget'. destruct Hget' as (-> & Hkey & Hfind).
  rewrite (Present_run fuel ch _ _ _ client zoneID zone w Hclient Hzone Hget)
    in Hrun.
  destruct (find (isTXTRecord (recordName ch) (Key ch)) (zone_Records zone))
    as [r|] eqn:Hmatch.
  - (* the record was there: both calls skip *)
    injection Hrun as <-. cbn [world trace].
    destruct (Hsame w ((t ++ c1 ++ c2)
                       ++ [CallGet zoneID;
                           CallLog "TXT record is present, skipping"])
                (same_directory_refl w)) as [Hclient2 Hzone2].
    eexists _, zoneID, zone, zone.
    unfold to_create. change (opt_Name (txt_options ch)) with (recordName ch).
    rewrite Hmatch.
    split.
    { rewrite (Present_run fuel ch _ _ _ client zoneID zone w
                 Hclient2 Hzone2 Hget).
      rewrite Hmatch. reflexivity. }
    cbn [world trace]. split; [reflexivity|]. split; [|split; [|split; [|split]]].
    + rewrite !creations_app, Hc1, Hc2. cbn.
      repeat rewrite List.app_nil_r. reflexivity.
    + exact Hfind.
    + rewrite !creations_app, Hc1, Hc2. cbn.
      repeat rewrite List.app_nil_r. reflexivity.
    + exact Hfind.
    + cbn. lia.
  - (* the record was missing: the first call creates, the second skips *)
    cbn zeta in Hrun.
    rewrite (provider_add ch client zoneID w zone Hkey Hfind) in Hrun.
    injection Hrun as <-. cbn [world trace].
    destruct (Hsame (after_add ch zoneID w)
                ((t ++ c1 ++ c2)
                 ++ [CallGet zoneID; CallAddDNSRecord zoneID (txt_options ch)])
                (after_add_directory ch zoneID w)) as [Hclient2 Hzone2].
    pose proof (after_add_zone ch zoneID w zone Hfind) as Hfind2.
    assert (Hget2 :
              DNSZone_Get client zoneID (after_add ch zoneID w)
              = (inr (Provider.with_records
                        (fun rs => rs ++ [txt_record ch (Provider.next_record_id w)])
                        zone), after_add ch zoneID w))
      by (apply provider_get_found; [exact Hkey|exact Hfind2]).
    assert (Hmatch2 :
              find (isTXTRecord (recordName ch) (Key ch))
                   (zone_Records zone
                    ++ [txt_record ch (Provider.next_record_id w)])
              = Some (txt_record ch (Provider.next_record_id w)))
      by (apply find_snoc; [exact Hmatch|apply isTXTRecord_txt_record]).
    eexists _, zoneID, zone, _.
    unfold to_create. change (opt_Name (txt_options ch)) with (recordName ch).
    rewrite Hmatch.
    split.
    { rewrite (Present_run fuel ch _ _ _ client zoneID _ _
                 Hclient2 Hzone2 Hget2).
      cbn [zone_Records Provider.with_records]. rewrite Hmatch2. reflexivity. }
    cbn [world trace]. split; [reflexivity|]. split; [|split; [|split; [|split]]].
    + rewrite !creations_app, Hc1, Hc2. cbn.
      repeat rewrite List.app_nil_r. reflexivity.
    + exact Hfind.
    + rewrite !creations_app, Hc1, Hc2. cbn.
      repeat rewrite List.app_nil_r. reflexivity.
    + exact Hfind2.
    + cbn [zone_Records Provider.with_records].
      rewrite filter_snoc_length by apply isTXTRecord_txt_record. cbn. lia.
Qed.

End OnProviderClaims.

(** C3.  [Present] is idempotent.  In any world: once the client is built,
    the zone resolved and the zone fetched, if the zone holds a TXT record
    with the derived name and the challenge key, [Present] succeeds and
    issues no creation call.  On the reference world: after a successful
    [Present], the same [Present] again succeeds, changes nothing and
    creates nothing; the two calls together have created the record once
    if the zone lacked it and not at all if the zone held it, and the zone
    holds that many more such records than before. *)
Theorem Present_idempotent :
  (forall (W : Type) (E : Env W) (fuel : nat) (ch : ChallengeRequest)
          (s s1 s2 : St W) (client : Client) (zoneID : Z) (zone : DNSZone)
          (w3 : W),
      newAPIClient ch s = (Ok client, s1) ->
      resolveZoneId fuel client (ResolvedZone ch) s1 = (Ok zoneID, s2) ->
      DNSZone_Get client zoneID (world s2) = (inr zone, w3) ->
      (exists r, In r (zone_Records zone)
                 /\ matches (recordName ch) (Key ch) r) ->
      exists s',
        Present fuel ch s = (Ok tt, s')
        /\ world s' = w3
        /\ creations (trace s') = creations (trace s))
  /\
  (forall (D : Provider.Decoder) (fuel : nat) (ch : ChallengeRequest)
          (w : Provider.t) (t : list Call) (s1 : St Provider.t),
      Present fuel ch (mkSt w t) = (Ok tt, s1) ->
      exists (s2 : St Provider.t) (zoneID : Z) (zone zone2 : DNSZone),
        Present fuel ch s1 = (Ok tt, s2)
        /\ world s2 = world s1
        /\ creations (trace s2) = creations (trace s1)
        /\ find (Provider.has_id zoneID) (Provider.zones w) = Some zone
        /\ creations (trace s1) = creations t ++ to_create ch zoneID zone
        /\ find (Provider.has_id zoneID) (Provider.zones (world s2))
           = Some zone2
        /\ length (List.filter (isTXTRecord (recordName ch) (Key ch))
                               (zone_Records zone2))
           = (length (List.filter (isTXTRecord (recordName ch) (Key ch))
                                  (zone_Records zone))
              + length (to_create ch zoneID zone))%nat).
Proof.
  split.
  - intros W E fuel ch s s1 s2 client zoneID zone w3 Hclient Hzone Hget Hm.
    destruct (Present_skips fuel ch s s1 s2 client zoneID zone w3
                Hclient Hzone Hget Hm) as [Hrun Hcre].
    eexists. split; [exact Hrun|]. split; [reflexivity|exact Hcre].
  - intros D fuel ch w t s1. apply Present_twice.
Qed.

Section Scenario.

Context `{Provider.Decoder}.

(** C5.  The challenge for [_acme-challenge.example.com.] in the zone
    [example.com.] with key [abc123], on a reference world whose secret
    holds the key of the account and whose account has a zone
    [example.com] without the record: [Present] derives the name
    [_acme-challenge], resolves that zone, and issues one creation call
    with that name, the value [abc123], TTL 120 and type 3; the [CleanUp]
    that follows finds the created record and issues the delete call with
    its identifier. *)
Theorem acme_challenge_scenario
    (fuel : nat) (ch : ChallengeRequest) (w : Provider.t) (t : list Call)
    (client : Client) (s1 : St Provider.t) (z : DNSZone) :
  ResolvedFQDN ch = "_acme-challenge.example.com." ->
  ResolvedZone ch = "example.com." ->
  Key ch = "abc123" ->
  newAPIClient ch (mkSt w t) = (Ok client, s1) ->
  client_AccessKey client = Provider.access_key w ->
  find (isZone "example.com") (Provider.zones w) = Some z ->
  find (Provider.has_id (zone_ID z)) (Provider.zones w) = Some z ->
  find (isTXTRecord "_acme-challenge" "abc123") (zone_Records z) = None ->
  (length (Provider.zones w) <= 3 * fuel)%nat ->
  Z.of_nat (length (Provider.zones w)) <= 3 * int32_max ->
  let record := {| opt_Type := 3; opt_Value := "abc123";
                   opt_Name := "_acme-challenge"; opt_TTL := 120 |} in
  let created := {| rec_ID := Provider.next_record_id w; rec_Type := 3;
                    rec_TTL := 120; rec_Value := "abc123";
                    rec_Name := "_acme-challenge" |} in
  recordName ch = "_acme-challenge"
  /\ strings.TrimSuffix (ResolvedZone ch) "." = "example.com"
  /\ exists (k : nat) (c1 : list Call) (sP sC : St Provider.t),
       s1 = mkSt w (t ++ c1)
       /\ Present fuel ch (mkSt w t) = (Ok tt, sP)
       /\ trace sP
          = t ++ c1 ++ page_requests k
              ++ [CallGet (zone_ID z); CallAddDNSRecord (zone_ID z) record]
       /\ find (Provider.has_id (zone_ID z)) (Provider.zones (world sP))
          = Some {| zone_ID := zone_ID z;
                    zone_Domain := zone_Domain z;
                    zone_Records := zone_Records z ++ [created] |}
       /\ CleanUp fuel ch sP = (Ok tt, sC)
       /\ trace sC
          = trace sP ++ c1 ++ page_requests k
              ++ [CallGet (zone_ID z);
                  CallDeleteDNSRecord (zone_ID z) (Provider.next_record_id w)].
Proof.
  intros Hfqdn Hzone Hkey Hclient Hak Hfz Hfid Hnomatch Hfuel Hmax
         record created.
  assert (Hname : recordName ch = "_acme-challenge")
    by (unfold recordName; rewrite Hfqdn, Hzone; reflexivity).
  assert (Hdomain : strings.TrimSuffix (ResolvedZone ch) "." = "example.com")
    by (rewrite Hzone; reflexivity).
  assert (Hopts : txt_options ch = record)
    by (unfold txt_options; fold (recordName ch); now rewrite Hname, Hkey).
  assert (Hrec : txt_record ch (Provider.next_record_id w) = created)
    by (unfold txt_record; now rewrite Hopts, Hkey).
  split; [exact Hname|]. split; [exact Hdomain|].
  assert (Hkeyb : String.eqb (client_AccessKey client) (Provider.access_key w)
                  = true) by now apply String.eqb_eq.
  destruct (provider_newAPIClient _ _ _ _ _ Hclient) as (c1 & Hs1 & _).
  destruct (provider_resolve_found client (ResolvedZone ch) "example.com"
              w (t ++ c1) fuel z Hak Hfz Hfuel Hmax) as (k & Hk & Hres).
  assert (Hres' : resolveZoneId fuel client (ResolvedZone ch) s1
                  = (Ok (zone_ID z), mkSt w ((t ++ c1) ++ page_requests k))).
  { unfold resolveZoneId. now rewrite Hdomain, Hs1. }
  destruct (provider_lookup _ _ _ _ _ _ _ _ Hclient Hres')
    as (c1' & c2 & Hs1' & Hs2 & _ & _ & Hsame).
  assert (c1' = c1) as ->.
  { rewrite Hs1 in Hs1'. injection Hs1' as Hs1'.
    now apply app_inv_head in Hs1'. }
  assert (c2 = page_requests k) as ->.
  { injection Hs2 as Hs2. rewrite <- app_assoc in Hs2.
    now do 2 apply app_inv_head in Hs2. }
  pose proof (provider_get_found client (zone_ID z) w z Hkeyb Hfid) as Hget.
  set (w4 := after_add ch (zone_ID z) w).
  set (tP := ((t ++ c1) ++ page_requests k)
             ++ [CallGet (zone_ID z); CallAddDNSRecord (zone_ID z) record]).
  assert (HP : Present fuel ch (mkSt w t) = (Ok tt, mkSt w4 tP)).
  { rewrite (Present_run fuel ch _ _ _ client (zone_ID z) z w
               Hclient Hres' Hget).
    rewrite Hname, Hkey, Hnomatch. cbn zeta.
    rewrite (provider_add ch client (zone_ID z) w z Hkeyb Hfid).
    now rewrite Hopts. }
  pose proof (after_add_zone ch (zone_ID z) w z Hfid) as Hfid4.
  fold w4 in Hfid4. rewrite Hrec in Hfid4.
  unfold Provider.with_records in Hfid4.
  destruct (Hsame w4 tP (after_add_directory ch (zone_ID z) w))
    as [Hclient4 Hres4].
  pose proof (provider_get_found client (zone_ID z) w4 _ Hkeyb Hfid4) as Hget4.
  assert (Hfound : find (isTXTRecord "_acme-challenge" "abc123")
                        (zone_Records z ++ [created]) = Some created)
    by (apply find_snoc; [exact Hnomatch|reflexivity]).
  destruct (DNSZone_DeleteDNSRecord client (zone_ID z)
              (Provider.next_record_id w) w4) as [d w5] eqn:Hdel.
  assert (Hd : d = None).
  { cbn in Hdel. unfold Provider.delete_record in Hdel.
    change (Provider.access_key w4) with (Provider.access_key w) in Hdel.
    rewrite Hkeyb, Hfid4 in Hdel.
    cbn [zone_Records Provider.with_records] in Hdel.
    rewrite existsb_app in Hdel. cbn [existsb rec_ID created] in Hdel.
    rewrite Z.eqb_refl, orb_true_r in Hdel.
    now injection Hdel as <- _. }
  subst d.
  exists k, c1, (mkSt w4 tP),
    (mkSt w5 ((tP ++ c1 ++ page_requests k)
              ++ [CallGet (zone_ID z);
                  CallDeleteDNSRecord (zone_ID z) (Provider.next_record_id w)])).
  split; [exact Hs1|]. split; [exact HP|]. split.
  { cbn [trace]. unfold tP. now rewrite <- !app_assoc. }
  split; [exact Hfid4|]. split.
  - rewrite (CleanUp_run fuel ch _ _ _ client (zone_ID z) _ w4
               Hclient4 Hres4 Hget4).
    cbn [zone_Records]. rewrite Hname, Hkey, Hfound. cbn zeta.
    cbn [rec_ID created]. now rewrite Hdel.
  - cbn [trace]. now rewrite <- !app_assoc.
Qed.

End Scenario.

(** ** Runs on the reference world *)

Lemma example_serves :
  @serves _ Example.env Example.client Example.world0 Example.pages.
Proof.
  intros i Hi. cbn in Hi.
  assert (Hcases : i = 1%nat \/ i = 2%nat) by lia.
  destruct Hcases as [-> | ->]; reflexivity.
Qed.

Lemma resolveZoneId_first_match_witness :
  @resolveZoneId _ Example.env 5 Example.client "example.com." Example.start
  = (Ok 14, mkSt Example.world0 (page_requests 2)).
Proof.
  refine (proj1 (@resolveZoneId_first_match _ Example.env Example.client
                   "example.com." Example.world0 [] Example.pages 2 5
                   Example.zone_com example_serves _ _ _ _ _)).
  - cbn. lia.
  - unfold int32_max. lia.
  - intros j Hj. assert (j = 0%nat) as -> by lia. reflexivity.
  - reflexivity.
  - lia.
Defined.

Lemma resolveZoneId_not_found_witness :
  @resolveZoneId _ Example.env 5 Example.client "example.fr." Example.start
  = (Err "failed to get zone id from zone name: example.fr.",
     mkSt Example.world0 (page_requests 2)).
Proof.
  refine (proj1 (@resolveZoneId_not_found _ Example.env Example.client
                   "example.fr." Example.world0 [] Example.pages 5
                   example_serves _ _ _)).
  - unfold int32_max. cbn. lia.
  - intros pg [<- | [<- | []]]; reflexivity.
  - cbn. lia.
Defined.

Lemma resolveZoneId_list_error_witness :
  @resolveZoneId _ Example.env 5 Example.stranger "example.com." Example.start
  = (Err "401 Unauthorized", mkSt Example.world0 (page_requests 1)).
Proof.
  refine (proj1 (@resolveZoneId_list_error _ Example.env Example.stranger
                   "example.com." Example.world0 Example.world0 [] 1 5
                   "401 Unauthorized" _ _ _ _ _)).
  - lia.
  - unfold int32_max. lia.
  - intros j Hj. lia.
  - reflexivity.
  - lia.
Defined.

Lemma resolveZoneId_termination_witness :
  (exists s',
     @resolveZoneId _ Endless.env 7 Example.client "example.com." (mkSt tt [])
     = (OutOfFuel, s')
     /\ length (trace s') = (0 + 7)%nat)
  /\
  (exists (enough : nat) (r : Outcome Z) (s' : St Provider.t),
     r <> OutOfFuel
     /\ forall fuel, (enough <= fuel)%nat ->
          @resolveZoneId _ Example.env fuel Example.client "example.fr."
            Example.start = (r, s')).
Proof.
  split.
  - refine (proj1 (@resolveZoneId_termination _ Endless.env Example.client
                     "example.com." (fun _ => True)) _ 7%nat (mkSt tt []) I).
    intros i w _. exists {| Items := []; HasMoreItems := true |}, w.
    repeat split.
  - refine (proj2 (@resolveZoneId_termination _ Example.env Example.client
                     "example.fr." (fun w => w = Example.world0))
              2 _ _ _ Example.start eq_refl).
    + unfold int32_min, int32_max. lia.
    + intros i w ->. reflexivity.
    + intros w ->. right. reflexivity.
Defined.

Lemma hasTXTRecord_exact_match_witness :
  exists result : option DNSRecord,
    @hasTXTRecord _ Example.env Example.client "_acme-challenge" "abc123" 14
      (mkSt Example.world1 [])
    = (Ok result, mkSt Example.world1 [CallGet 14])
    /\ ((exists r, result = Some r)
        <-> (exists r, In r (zone_Records (nth 3 (Provider.zones Example.world1)
                                              Example.zone_com))
                       /\ matches "_acme-challenge" "abc123" r)).
Proof.
  destruct (@hasTXTRecord_exact_match _ Example.env Example.client
              "_acme-challenge" "abc123" 14 (mkSt Example.world1 [])
              (nth 3 (Provider.zones Example.world1) Example.zone_com)
              Example.world1 eq_refl)
    as (result & Hrun & Hiff & _).
  exists result. split; [exact Hrun|exact Hiff].
Defined.

Lemma nil_config_undefined_secret_witness :
  @Present _ Example.env 5 Example.bare_challenge Example.start
  = (Err "undefined access key secret", Example.start)
  /\ @CleanUp _ Example.env 5 Example.bare_challenge Example.start
     = (Err "undefined access key secret", Example.start).
Proof.
  destruct (@nil_config_undefined_secret _ Example.env Example.bare_challenge
              eq_refl) as [_ Hfail].
  destruct (Hfail 5%nat Example.start) as (_ & HP & HC).
  split; [exact HP|exact HC].
Defined.

Lemma CleanUp_idempotent_witness :
  (exists s',
     @CleanUp _ Example.env 5 Example.challenge Example.start = (Ok tt, s')
     /\ world s' = Example.world0
     /\ deletions (trace s') = [])
  /\
  (exists s',
     @CleanUp _ Example.env 5 Example.challenge (mkSt Example.world1 [])
     = (Ok tt, s')
     /\ deletions (trace s') = [(14, 100)]).
Proof.
  split.
  - refine (proj1 (@CleanUp_idempotent _ Example.env 5 Example.challenge
                     Example.start
                     (mkSt Example.world0
                        [CallSecretGet "cert-manager" "bunny-credentials"])
                     (mkSt Example.world0
                        (CallSecretGet "cert-manager" "bunny-credentials"
                         :: page_requests 2))
                     Example.client 14 Example.zone_com Example.world0
                     eq_refl eq_refl eq_refl) _).
    intros r [<- | []] (Htype & _). discriminate.
  - destruct (proj2 (@CleanUp_idempotent _ Example.env 5 Example.challenge
                       (mkSt Example.world1 [])
                       (mkSt Example.world1
                          [CallSecretGet "cert-manager" "bunny-credentials"])
                       (mkSt Example.world1
                          (CallSecretGet "cert-manager" "bunny-credentials"
                           :: page_requests 2))
                       Example.client 14
                       (nth 3 (Provider.zones Example.world1) Example.zone_com)
                       Example.world1 eq_refl eq_refl eq_refl))
      as (r & d & s' & Hin & Hm & Hdel & Hrun & Hdels).
    + eexists. split; [right; left; reflexivity|]. now repeat split.
    + destruct Hin as [<- | [<- | []]]; [destruct Hm; discriminate|].
      cbn in Hdel. injection Hdel as <- _.
      exists s'. split; [exact Hrun|exact Hdels].
Defined.

Lemma stray_outside_zone (p : string) :
  ResolvedFQDN Example.stray_challenge
  <> p +:+ ResolvedZone Example.stray_challenge.
Proof.
  intros Hp.
  assert (Hs : strings.HasSuffix (ResolvedFQDN Example.stray_challenge)
                 (ResolvedZone Example.stray_challenge) = true)
    by (apply strings_facts.HasSuffix_iff; now exists p).
  vm_compute in Hs. discriminate.
Qed.

Lemma recordName_outside_zone_witness :
  recordName Example.stray_challenge = "_acme-challenge.example.org"
  /\ @Present _ Example.env 5 Example.stray_challenge Example.start
     = (Ok tt,
        mkSt (world (snd (@Present _ Example.env 5 Example.stray_challenge
                            Example.start)))
             (CallSecretGet "cert-manager" "bunny-credentials"
              :: page_requests 2
              ++ [CallGet 14;
                  CallAddDNSRecord 14
                    {| opt_Type := 3; opt_Value := "abc123";
                       opt_Name := "_acme-challenge.example.org";
                       opt_TTL := 120 |}])).
Proof.
  destruct (@recordName_outside_zone _ Example.env 5 Example.stray_challenge
              Example.start
              (mkSt Example.world0
                 [CallSecretGet "cert-manager" "bunny-credentials"])
              (mkSt Example.world0
                 (CallSecretGet "cert-manager" "bunny-credentials"
                  :: page_requests 2))
              Example.client 14 Example.zone_com Example.world0
              stray_outside_zone eq_refl eq_refl eq_refl)
    as (Hname & _ & HP & _).
  split; [exact Hname|]. rewrite HP. reflexivity.
Defined.

Lemma Present_idempotent_witness :
  (exists s',
     @Present _ Example.env 5 Example.challenge (mkSt Example.world1 [])
     = (Ok tt, s')
     /\ world s' = Example.world1
     /\ creations (trace s') = [])
  /\
  (exists (s2 : St Provider.t),
     @Present _ Example.env 5 Example.challenge
       (snd (@Present _ Example.env 5 Example.challenge Example.start))
     = (Ok tt, s2)
     /\ world s2 = Example.world1
     /\ creations (trace s2) = [(14, txt_options Example.challenge)]).
Proof.
  split.
  - refine (proj1 Present_idempotent _ Example.env 5%nat Example.challenge
              (mkSt Example.world1 [])
              (mkSt Example.world1
                 [CallSecretGet "cert-manager" "bunny-credentials"])
              (mkSt Example.world1
                 (CallSecretGet "cert-manager" "bunny-credentials"
                  :: page_requests 2))
              Example.client 14
              (nth 3 (Provider.zones Example.world1) Example.zone_com)
              Example.world1 eq_refl eq_refl eq_refl _).
    eexists. split; [right; left; reflexivity|]. now repeat split.
  - destruct (proj2 Present_idempotent Example.decode 5%nat Example.challenge
                Example.world0 []
                (snd (@Present _ Example.env 5 Example.challenge Example.start))
                eq_refl)
      as (s2 & zoneID & zone & zone2 & Hrun & Hworld & Hsame & _ & _).
    exists s2. split; [exact Hrun|]. split.
    + rewrite Hworld. reflexivity.
    + rewrite Hsame. reflexivity.
Defined.

Lemma acme_challenge_scenario_witness :
  recordName Example.challenge = "_acme-challenge"
  /\ exists sP sC,
       @Present _ Example.env 5 Example.challenge Example.start = (Ok tt, sP)
       /\ creations (trace sP)
          = [(14, {| opt_Type := 3; opt_Value := "abc123";
                     opt_Name := "_acme-challenge"; opt_TTL := 120 |})]
       /\ @CleanUp _ Example.env 5 Example.challenge sP = (Ok tt, sC)
       /\ deletions (trace sC) = [(14, 100)].
Proof.
  destruct (@acme_challenge_scenario Example.decode 5 Example.challenge
              Example.world0 [] Example.client
              (mkSt Example.world0
                 [CallSecretGet "cert-manager" "bunny-credentials"])
              Example.zone_com eq_refl eq_refl eq_refl eq_refl eq_refl
              eq_refl eq_refl eq_refl)
    as (Hname & _ & k & c1 & sP & sC & Hs1 & HP & HtP & _ & HC & HtC).
  - cbn. lia.
  - unfold int32_max. cbn. lia.
  - split; [exact Hname|]. exists sP, sC.
    injection Hs1 as Hc1. subst c1.
    destruct (read_only_page_requests_from 1 k) as [Hc Hd].
    unfold page_requests in HtP, HtC.
    split; [exact HP|]. split; [|split; [exact HC|]].
    + rewrite HtP, !creations_app, Hc. reflexivity.
    + rewrite HtC, HtP, !deletions_app, Hd. reflexivity.
Defined.

(** * Further properties of the solver *)

(** ** Credentials *)

Section Credentials.

Context {W : Type} `{Env W}.

(** X1.  A configuration that does not decode stops [Present] and
    [CleanUp] at once: the error is the decoder's, under the context
    "error decoding solver config: ", and no call leaves the process. *)
Theorem config_decode_failure
    (ch : ChallengeRequest) (j : JSON) (cfg' : bunnyConfig) (err : error) :
  Config ch = Some j ->
  json_Unmarshal (Raw j) zero_bunnyConfig = (cfg', Some err) ->
  loadConfig (Config ch)
  = (cfg', Some ("error decoding solver config: " +:+ err))
  /\ forall (fuel : nat) (s : St W),
       Present fuel ch s = (Err ("error decoding solver config: " +:+ err), s)
       /\ CleanUp fuel ch s
          = (Err ("error decoding solver config: " +:+ err), s).
Proof.
  intros Hcfg Hdec.
  assert (Hload : loadConfig (Config ch)
                  = (cfg', Some ("error decoding solver config: " +:+ err)))
    by (unfold loadConfig; now rewrite Hcfg, Hdec).
  split; [exact Hload|]. intros fuel s.
  unfold Present, CleanUp, bind, newAPIClient. now rewrite Hload.
Qed.

(** X2.  When the cluster fails to return the secret, [Present] and
    [CleanUp] return the cluster's error as it came, after one call, the
    request for the secret named by the configuration in the namespace of
    the challenge; the provider is not called. *)
Theorem secret_lookup_failure
    (fuel : nat) (ch : ChallengeRequest) (cfg : bunnyConfig) (s : St W)
    (e : error) (w' : W) :
  loadConfig (Config ch) = (cfg, None) ->
  ref_Name (AccessKeySecretRef cfg) <> "" ->
  Secrets_Get (ResourceNamespace ch) (ref_Name (AccessKeySecretRef cfg))
              (world s) = (inl e, w') ->
  let s' := mkSt w' (trace s ++ [CallSecretGet (ResourceNamespace ch)
                                   (ref_Name (AccessKeySecretRef cfg))]) in
  Present fuel ch s = (Err e, s') /\ CleanUp fuel ch s = (Err e, s').
Proof.
  intros Hload Hname Hget s'.
  assert (Hclient : newAPIClient ch s = (Err e, s')).
  { unfold newAPIClient. rewrite Hload.
    unfold bind, getAccessKeyFromSecret.
    apply String.eqb_neq in Hname. rewrite Hname.
    unfold bind, secrets_get, perform, lift_sum. now rewrite Hget. }
  unfold Present, CleanUp, bind. now rewrite Hclient.
Qed.

(** X3.  When the secret exists but lacks the key named by the
    configuration, [Present] and [CleanUp] fail with the error "key not
    found", which quotes the key and names the secret by namespace and
    name; the provider is not called. *)
Theorem secret_key_missing
    (fuel : nat) (ch : ChallengeRequest) (cfg : bunnyConfig) (s : St W)
    (secret : Secret) (w' : W) :
  loadConfig (Config ch) = (cfg, None) ->
  ref_Name (AccessKeySecretRef cfg) <> "" ->
  Secrets_Get (ResourceNamespace ch) (ref_Name (AccessKeySecretRef cfg))
              (world s) = (inr secret, w') ->
  secret_Data secret !! ref_Key (AccessKeySecretRef cfg) = None ->
  let s' := mkSt w' (trace s ++ [CallSecretGet (ResourceNamespace ch)
                                   (ref_Name (AccessKeySecretRef cfg))]) in
  let e := "key not found " +:+ strconv_Quote (ref_Key (AccessKeySecretRef cfg))
           +:+ " in secret '" +:+ ResourceNamespace ch +:+ "/"
           +:+ ref_Name (AccessKeySecretRef cfg) +:+ "'" in
  Present fuel ch s = (Err e, s') /\ CleanUp fuel ch s = (Err e, s').
Proof.
  intros Hload Hname Hget Hkey s' e.
  assert (Hclient : newAPIClient ch s = (Err e, s')).
  { unfold newAPIClient. rewrite Hload.
    unfold bind, getAccessKeyFromSecret.
    apply String.eqb_neq in Hname. rewrite Hname.
    unfold bind, secrets_get, perform, lift_sum. rewrite Hget. cbn.
    now rewrite Hkey. }
  unfold Present, CleanUp, bind. now rewrite Hclient.
Qed.

(** X4.  [newAPIClient] builds a client exactly when the configuration
    decodes, names a secret, the cluster returns that secret and the secret
    holds the configured key; the client then carries the value stored
    under that key, and the one call issued is the request for the
    secret. *)
Theorem newAPIClient_ok_iff
    (ch : ChallengeRequest) (s : St W) (client : Client) (s1 : St W) :
  newAPIClient ch s = (Ok client, s1)
  <-> exists cfg secret,
        loadConfig (Config ch) = (cfg, None)
        /\ ref_Name (AccessKeySecretRef cfg) <> ""
        /\ Secrets_Get (ResourceNamespace ch)
                       (ref_Name (AccessKeySecretRef cfg)) (world s)
           = (inr secret, world s1)
        /\ secret_Data secret !! ref_Key (AccessKeySecretRef cfg)
           = Some (client_AccessKey client)
        /\ trace s1
           = trace s ++ [CallSecretGet (ResourceNamespace ch)
                           (ref_Name (AccessKeySecretRef cfg))].
Proof.
  unfold newAPIClient. split.
  - destruct (loadConfig (Config ch)) as [cfg [err|]]; [discriminate|].
    unfold bind, getAccessKeyFromSecret.
    destruct (String.eqb (ref_Name (AccessKeySecretRef cfg)) "") eqn:Hname;
      [discriminate|].
    unfold bind, secrets_get, perform, lift_sum.
    destruct (Secrets_Get _ _ _) as [[e|secret] w'] eqn:Hget; cbn;
      [discriminate|].
    destruct (secret_Data secret !! _) as [accessKey|] eqn:Hkey; cbn;
      [|discriminate].
    intros [= <- <-]. exists cfg, secret.
    split; [reflexivity|]. split; [now apply String.eqb_neq|].
    now repeat split.
  - intros (cfg & secret & Hload & Hname & Hget & Hkey & Htrace).
    rewrite Hload. unfold bind, getAccessKeyFromSecret.
    apply String.eqb_neq in Hname. rewrite Hname.
    unfold bind, secrets_get, perform, lift_sum. rewrite Hget. cbn.
    rewrite Hkey. cbn. unfold ret. destruct client as [k], s1 as [w1 t1].
    cbn in *. now rewrite Htrace.
Qed.

End Credentials.

Lemma config_decode_failure_witness :
  @Present _ Example.env 5 Example.garbled_challenge Example.start
  = (Err ("error decoding solver config: "
          +:+ "invalid character looking for beginning of value"),
     Example.start).
Proof.
  destruct (@config_decode_failure _ Example.env Example.garbled_challenge
              {| Raw := "apiSecretRef" |} zero_bunnyConfig
              "invalid character looking for beginning of value"
              eq_refl eq_refl) as [_ Hfail].
  exact (proj1 (Hfail 5%nat Example.start)).
Defined.

Lemma secret_lookup_failure_witness :
  @Present _ Example.env 5 Example.homeless_challenge Example.start
  = (Err "secrets 'bunny-credentials' not found",
     mkSt Example.world0 [CallSecretGet "default" "bunny-credentials"]).
Proof.
  refine (proj1 (@secret_lookup_failure _ Example.env 5
                   Example.homeless_challenge Example.config Example.start
                   "secrets 'bunny-credentials' not found" Example.world0
                   eq_refl _ eq_refl)).
  discriminate.
Defined.

Lemma secret_key_missing_witness :
  @CleanUp _ Example.env 5 Example.challenge
    (mkSt Example.world_misfiled [])
  = (Err ("key not found " +:+ Provider.quote "api-key"
          +:+ " in secret 'cert-manager/bunny-credentials'"),
     mkSt Example.world_misfiled
          [CallSecretGet "cert-manager" "bunny-credentials"]).
Proof.
  refine (proj2 (@secret_key_missing _ Example.env 5 Example.challenge
                   Example.config (mkSt Example.world_misfiled [])
                   {| secret_Data := {[ "token" := "s3cr3t" ]} |}
                   Example.world_misfiled eq_refl _ eq_refl eq_refl)).
  discriminate.
Defined.

Lemma newAPIClient_ok_iff_witness :
  @newAPIClient _ Example.env Example.challenge Example.start
  = (Ok Example.client,
     mkSt Example.world0 [CallSecretGet "cert-manager" "bunny-credentials"]).
Proof.
  apply (proj2 (@newAPIClient_ok_iff _ Example.env Example.challenge
                  Example.start Example.client
                  (mkSt Example.world0
                     [CallSecretGet "cert-manager" "bunny-credentials"]))).
  exists Example.config, {| secret_Data := {[ "api-key" := "s3cr3t" ]} |}.
  split; [reflexivity|]. split; [discriminate|]. now repeat split.
Defined.

(** ** What the handlers change, and how they fail *)

Lemma find_first {A} (f : A -> bool) (l : list A) (x : A) :
  find f l = Some x ->
  exists before after,
    l = before ++ x :: after
    /\ f x = true
    /\ forall y, In y before -> f y = false.
Proof.
  induction l as [|a l IH]; [discriminate|]. cbn.
  destruct (f a) eqn:Ha.
  - intros [= ->]. exists [], l. now repeat split.
  - intros Hf. destruct (IH Hf) as (before & after & -> & Hx & Hbefore).
    exists (a :: before), after. split; [reflexivity|]. split; [exact Hx|].
    intros y [<- | Hy]; [exact Ha|now apply Hbefore].
Qed.

Section Mutations.

Context {W : Type} `{Env W}.

(** X5.  Whatever the world answers and however it ends, [Present] issues
    no delete call and at most one creation call, and that call carries
    type 3, the challenge key, the derived name and TTL 120. *)
Theorem Present_mutations
    (fuel : nat) (ch : ChallengeRequest) (s s' : St W) (r : Outcome unit) :
  Present fuel ch s = (r, s') ->
  deletions (trace s') = deletions (trace s)
  /\ (creations (trace s') = creations (trace s)
      \/ exists zoneID,
           creations (trace s')
           = creations (trace s) ++ [(zoneID, txt_options ch)]).
Proof.
  unfold Present, bind.
  destruct (newAPIClient ch s) as [[client|e|] s1] eqn:H1;
    pose proof (newAPIClient_trace _ _ _ _ H1) as (c1 & Ht1 & Hc1 & Hd1);
    try (intros [= <- <-]; rewrite Ht1, creations_app, deletions_app, Hc1, Hd1;
         rewrite !app_nil_r; now split; [|left]).
  destruct (resolveZoneId fuel client (ResolvedZone ch) s1)
    as [[zoneID|e|] s2] eqn:H2;
    pose proof (resolveZoneId_trace _ _ _ _ _ _ H2) as (c2 & Ht2 & Hc2 & Hd2);
    try (intros [= <- <-];
         rewrite Ht2, Ht1, !creations_app, !deletions_app, Hc1, Hd1, Hc2, Hd2;
         rewrite !app_nil_r; now split; [|left]).
  assert (Hcre : creations (trace s2) = creations (trace s))
    by (rewrite Ht2, Ht1, !creations_app, Hc1, Hc2; now rewrite !app_nil_r).
  assert (Hdel : deletions (trace s2) = deletions (trace s))
    by (rewrite Ht2, Ht1, !deletions_app, Hd1, Hd2; now rewrite !app_nil_r).
  rewrite hasTXTRecord_run.
  destruct (DNSZone_Get client zoneID (world s2)) as [[e|zone] w3].
  - intros [= <- <-]. cbn [trace].
    rewrite creations_app, deletions_app, Hcre, Hdel. cbn.
    rewrite !app_nil_r. now split; [|left].
  - destruct (find _ _) as [found|].
    + unfold log_Println, perform, ret. cbn. intros [= <- <-]. cbn [trace].
      rewrite !creations_app, !deletions_app, Hcre, Hdel. cbn.
      rewrite !app_nil_r. now split; [|left].
    + unfold with_context, dnszone_add, perform, lift_sum, ret. cbn.
      fold (recordName ch).
      change {| opt_Type := 3; opt_Value := Key ch;
                opt_Name := recordName ch; opt_TTL := 120 |}
        with (txt_options ch).
      destruct (DNSZone_AddDNSRecord client zoneID (txt_options ch) w3)
        as [[e|added] w4]; cbn; intros [= <- <-]; cbn [trace];
        rewrite !creations_app, !deletions_app, Hcre, Hdel; cbn;
        rewrite !app_nil_r; (split; [reflexivity|right; now exists zoneID]).
Qed.

(** X6.  Whatever the world answers and however it ends, [CleanUp] issues
    no creation call and at most one delete call. *)
Theorem CleanUp_mutations
    (fuel : nat) (ch : ChallengeRequest) (s s' : St W) (r : Outcome unit) :
  CleanUp fuel ch s = (r, s') ->
  creations (trace s') = creations (trace s)
  /\ (deletions (trace s') = deletions (trace s)
      \/ exists zoneID recordID,
           deletions (trace s')
           = deletions (trace s) ++ [(zoneID, recordID)]).
Proof.
  unfold CleanUp, bind.
  destruct (newAPIClient ch s) as [[client|e|] s1] eqn:H1;
    pose proof (newAPIClient_trace _ _ _ _ H1) as (c1 & Ht1 & Hc1 & Hd1);
    try (intros [= <- <-]; rewrite Ht1, creations_app, deletions_app, Hc1, Hd1;
         rewrite !app_nil_r; now split; [|left]).
  destruct (resolveZoneId fuel client (ResolvedZone ch) s1)
    as [[zoneID|e|] s2] eqn:H2;
    pose proof (resolveZoneId_trace _ _ _ _ _ _ H2) as (c2 & Ht2 & Hc2 & Hd2);
    try (intros [= <- <-];
         rewrite Ht2, Ht1, !creations_app, !deletions_app, Hc1, Hd1, Hc2, Hd2;
         rewrite !app_nil_r; now split; [|left]).
  assert (Hcre : creations (trace s2) = creations (trace s))
    by (rewrite Ht2, Ht1, !creations_app, Hc1, Hc2; now rewrite !app_nil_r).
  assert (Hdel : deletions (trace s2) = deletions (trace s))
    by (rewrite Ht2, Ht1, !deletions_app, Hd1, Hd2; now rewrite !app_nil_r).
  unfold with_context at 1. rewrite hasTXTRecord_run.
  destruct (DNSZone_Get client zoneID (world s2)) as [[e|zone] w3].
  - intros [= <- <-]. cbn [trace].
    rewrite creations_app, deletions_app, Hcre, Hdel. cbn.
    rewrite !app_nil_r. now split; [|left].
  - destruct (find _ _) as [found|].
    + unfold with_context, dnszone_delete, perform, lift_error. cbn.
      destruct (DNSZone_DeleteDNSRecord client zoneID (rec_ID found) w3)
        as [[e|] w4]; cbn; intros [= <- <-]; cbn [trace];
        rewrite !creations_app, !deletions_app, Hcre, Hdel; cbn;
        rewrite !app_nil_r;
        (split; [reflexivity|right; now exists zoneID, (rec_ID found)]).
    + unfold ret. intros [= <- <-]. cbn [trace].
      rewrite !creations_app, !deletions_app, Hcre, Hdel. cbn.
      rewrite !app_nil_r. now split; [|left].
Qed.

(** X7.  When the fetch of the resolved zone fails, neither handler goes
    on: [Present] returns the provider's error under the context "error
    getting zone records: ", [CleanUp] returns it under that context and,
    before it, the context "failed to get zone records: "; the fetch is
    the last call of both. *)
Theorem zone_fetch_failure
    (fuel : nat) (ch : ChallengeRequest) (s s1 s2 : St W)
    (client : Client) (zoneID : Z) (e : error) (w3 : W) :
  newAPIClient ch s = (Ok client, s1) ->
  resolveZoneId fuel client (ResolvedZone ch) s1 = (Ok zoneID, s2) ->
  DNSZone_Get client zoneID (world s2) = (inl e, w3) ->
  Present fuel ch s
  = (Err ("error getting zone records: " +:+ e),
     mkSt w3 (trace s2 ++ [CallGet zoneID]))
  /\ CleanUp fuel ch s
     = (Err ("failed to get zone records: "
             +:+ "error getting zone records: " +:+ e),
        mkSt w3 (trace s2 ++ [CallGet zoneID])).
Proof.
  intros Hclient Hzone Hget.
  split.
  - unfold Present, bind. now rewrite Hclient, Hzone, hasTXTRecord_run, Hget.
  - unfold CleanUp, bind. rewrite Hclient, Hzone.
    unfold with_context. now rewrite hasTXTRecord_run, Hget.
Qed.

(** X8.  When the provider refuses the creation, [Present] returns the
    provider's error under the context "failed to add TXT record: "; the
    creation call is its last call, issued once. *)
Theorem Present_add_failure
    (fuel : nat) (ch : ChallengeRequest) (s s1 s2 : St W)
    (client : Client) (zoneID : Z) (zone : DNSZone) (w3 w4 : W) (e : error) :
  newAPIClient ch s = (Ok client, s1) ->
  resolveZoneId fuel client (ResolvedZone ch) s1 = (Ok zoneID, s2) ->
  DNSZone_Get client zoneID (world s2) = (inr zone, w3) ->
  (forall r, In r (zone_Records zone) ->
             ~ matches (recordName ch) (Key ch) r) ->
  DNSZone_AddDNSRecord client zoneID (txt_options ch) w3 = (inl e, w4) ->
  Present fuel ch s
  = (Err ("failed to add TXT record: " +:+ e),
     mkSt w4 (trace s2 ++ [CallGet zoneID;
                           CallAddDNSRecord zoneID (txt_options ch)]))
  /\ creations (trace s2 ++ [CallGet zoneID;
                             CallAddDNSRecord zoneID (txt_options ch)])
     = creations (trace s) ++ [(zoneID, txt_options ch)].
Proof.
  intros Hclient Hzone Hget Hnone Hadd.
  destruct (lookup_trace _ _ _ _ _ _ _ Hclient Hzone) as [Hcre _].
  rewrite (Present_run fuel ch s s1 s2 client zoneID zone w3) by assumption.
  destruct (find _ _) as [r|] eqn:Hf.
  - apply find_some in Hf as [Hin Hm]. apply isTXTRecord_iff in Hm.
    now destruct (Hnone r Hin).
  - cbn zeta. rewrite Hadd. split; [reflexivity|].
    now rewrite creations_app, Hcre.
Qed.

(** X9.  The record that [hasTXTRecord] answers is the first TXT record of
    the zone, in the order of the provider's answer, with the target name
    and value: no record before it is one. *)
Theorem hasTXTRecord_first_match
    (client : Client) (name key : string) (zoneId : Z) (s : St W)
    (zone : DNSZone) (w' : W) (r : DNSRecord) (s' : St W) :
  DNSZone_Get client zoneId (world s) = (inr zone, w') ->
  hasTXTRecord client name key zoneId s = (Ok (Some r), s') ->
  exists before after,
    zone_Records zone = before ++ r :: after
    /\ matches name key r
    /\ forall r', In r' before -> ~ matches name key r'.
Proof.
  intros Hget. rewrite hasTXTRecord_run, Hget. intros [= Hfind _].
  destruct (find_first _ _ _ Hfind) as (before & after & Hsplit & Hr & Hbefore).
  exists before, after. split; [exact Hsplit|].
  split; [now apply isTXTRecord_iff|].
  intros r' Hin Hm. apply isTXTRecord_iff in Hm.
  rewrite (Hbefore r' Hin) in Hm. discriminate.
Qed.

End Mutations.

Lemma Present_mutations_witness :
  deletions (trace (snd (@Present _ Example.env 5 Example.challenge
                           Example.start))) = []
  /\ creations (trace (snd (@Present _ Example.env 5 Example.challenge
                              Example.start)))
     = [(14, txt_options Example.challenge)].
Proof.
  destruct (@Present_mutations _ Example.env 5 Example.challenge Example.start
              (snd (@Present _ Example.env 5 Example.challenge Example.start))
              (Ok tt) eq_refl) as [Hdel _].
  split; [exact Hdel|reflexivity].
Defined.

Lemma CleanUp_mutations_witness :
  creations (trace (snd (@CleanUp _ Example.env 5 Example.challenge
                           (mkSt Example.world1 [])))) = []
  /\ deletions (trace (snd (@CleanUp _ Example.env 5 Example.challenge
                              (mkSt Example.world1 []))))
     = [(14, 100)].
Proof.
  destruct (@CleanUp_mutations _ Example.env 5 Example.challenge
              (mkSt Example.world1 [])
              (snd (@CleanUp _ Example.env 5 Example.challenge
                      (mkSt Example.world1 [])))
              (Ok tt) eq_refl) as [Hcre _].
  split; [exact Hcre|reflexivity].
Defined.

Lemma zone_fetch_failure_witness :
  @Present _ Example.list_only_env 5 Example.challenge Example.start
  = (Err "error getting zone records: 403 Forbidden",
     mkSt Example.world0
          ((CallSecretGet "cert-manager" "bunny-credentials"
            :: page_requests 2) ++ [CallGet 14]))
  /\ @CleanUp _ Example.list_only_env 5 Example.challenge Example.start
     = (Err ("failed to get zone records: "
             +:+ "error getting zone records: 403 Forbidden"),
        mkSt Example.world0
             ((CallSecretGet "cert-manager" "bunny-credentials"
               :: page_requests 2) ++ [CallGet 14])).
Proof.
  exact (@zone_fetch_failure _ Example.list_only_env 5 Example.challenge
           Example.start
           (mkSt Example.world0
              [CallSecretGet "cert-manager" "bunny-credentials"])
           (mkSt Example.world0
              (CallSecretGet "cert-manager" "bunny-credentials"
               :: page_requests 2))
           Example.client 14 "403 Forbidden" Example.world0
           eq_refl eq_refl eq_refl).
Defined.

Lemma Present_add_failure_witness :
  @Present _ Example.read_only_env 5 Example.challenge Example.start
  = (Err "failed to add TXT record: 403 Forbidden",
     mkSt Example.world0
          ((CallSecretGet "cert-manager" "bunny-credentials"
            :: page_requests 2)
           ++ [CallGet 14;
               CallAddDNSRecord 14 (txt_options Example.challenge)])).
Proof.
  refine (proj1 (@Present_add_failure _ Example.read_only_env 5
                   Example.challenge Example.start
                   (mkSt Example.world0
                      [CallSecretGet "cert-manager" "bunny-credentials"])
                   (mkSt Example.world0
                      (CallSecretGet "cert-manager" "bunny-credentials"
                       :: page_requests 2))
                   Example.client 14 Example.zone_com Example.world0
                   Example.world0 "403 Forbidden"
                   eq_refl eq_refl eq_refl _ eq_refl)).
  intros r [<- | []] (Htype & _). discriminate.
Defined.

Lemma hasTXTRecord_first_match_witness :
  exists before after,
    zone_Records (nth 3 (Provider.zones Example.world2) Example.zone_com)
    = before
        ++ {| rec_ID := 100; rec_Type := 3; rec_TTL := 120;
              rec_Value := "abc123"; rec_Name := "_acme-challenge" |}
        :: after
    /\ forall r', In r' before -> ~ matches "_acme-challenge" "abc123" r'.
Proof.
  destruct (@hasTXTRecord_first_match _ Example.env Example.client
              "_acme-challenge" "abc123" 14 (mkSt Example.world2 [])
              (nth 3 (Provider.zones Example.world2) Example.zone_com)
              Example.world2
              {| rec_ID := 100; rec_Type := 3; rec_TTL := 120;
                 rec_Value := "abc123"; rec_Name := "_acme-challenge" |}
              (mkSt Example.world2 [CallGet 14]) eq_refl eq_refl)
    as (before & after & Hsplit & _ & Hbefore).
  exists before, after. split; [exact Hsplit|exact Hbefore].
Defined.

(** ** The resolver in any world *)

Lemma page_walk_small (n : nat) :
  forall i : Z,
    int32_min <= i ->
    i + Z.of_nat n - 1 <= int32_max ->
    page_walk i n = map (fun j => i + Z.of_nat j) (seq 0 n).
Proof.
  induction n as [|n IH]; intros i Hlo Hhi; [reflexivity|].
  cbn [page_walk seq map]. rewrite Z.add_0_r. f_equal.
  rewrite <- seq_shift, map_map.
  destruct n as [|n']; [reflexivity|].
  rewrite int32_incr_small by lia. rewrite IH by lia.
  apply map_ext. intros j. lia.
Qed.

Section ResolverAnyWorld.

Context {W : Type} `{Env W}.

Variables (client : Client).

Lemma resolveZoneId_from_requests (zoneName domain : string) (fuel : nat) :
  forall (i : Z) (s s' : St W) (r : Outcome Z),
    resolveZoneId_from fuel client zoneName domain i s = (r, s') ->
    exists n : nat,
      (n <= fuel)%nat
      /\ trace s'
         = trace s ++ map (fun p => CallList {| Page := p; PerPage := 3 |})
                          (page_walk i n)
      /\ (r = OutOfFuel -> n = fuel)
      /\ (r <> OutOfFuel -> (1 <= n)%nat).
Proof.
  induction fuel as [|fuel IH]; intros i s s' r.
  - intros [= <- <-]. exists 0%nat. cbn. rewrite app_nil_r.
    split; [lia|]. split; [reflexivity|]. split; [reflexivity|congruence].
  - rewrite loop_step.
    assert (Hone : forall (o : Outcome Z) (w' : W),
               o <> OutOfFuel ->
               (o, mkSt w' (trace s ++ [CallList (page_opts i)])) = (r, s') ->
               exists n : nat,
                 (n <= S fuel)%nat
                 /\ trace s'
                    = trace s
                        ++ map (fun p => CallList {| Page := p; PerPage := 3 |})
                               (page_walk i n)
                 /\ (r = OutOfFuel -> n = S fuel)
                 /\ (r <> OutOfFuel -> (1 <= n)%nat)).
    { intros o w' Ho [= <- <-]. exists 1%nat. split; [lia|].
      split; [reflexivity|]. split; [intros Hr; now destruct Ho|lia]. }
    destruct (DNSZone_List client (page_opts i) (world s)) as [[e|zs] w'].
    + apply Hone. discriminate.
    + destruct (find (isZone domain) (Items zs)); [apply Hone; discriminate|].
      destruct (HasMoreItems zs); [|apply Hone; discriminate].
      intros Hrun. apply IH in Hrun as (n & Hn & Htrace & Hout & Hret).
      cbn [trace] in Htrace. exists (S n). split; [lia|]. split.
      * rewrite Htrace, <- app_assoc. reflexivity.
      * split; [intros Hr; now rewrite (Hout Hr)|lia].
Qed.

(** X10.  In any world and whatever the outcome, the calls of
    [resolveZoneId] are listing requests with three items per page, the
    first for page 1 and each next one for the [int32] successor of the
    page before: pages 1, 2, ..., with no page skipped or asked twice
    while the count stays within [int32].  A run that returns has asked
    for at least one page. *)
Theorem resolveZoneId_requests
    (fuel : nat) (zoneName : string) (s s' : St W) (r : Outcome Z) :
  resolveZoneId fuel client zoneName s = (r, s') ->
  exists n : nat,
    (n <= fuel)%nat
    /\ trace s'
       = trace s ++ map (fun p => CallList {| Page := p; PerPage := 3 |})
                        (page_walk 1 n)
    /\ (Z.of_nat n <= int32_max ->
        page_walk 1 n = map Z.of_nat (seq 1 n))
    /\ (r = OutOfFuel -> n = fuel)
    /\ (r <> OutOfFuel -> (1 <= n)%nat).
Proof.
  intros Hrun. apply resolveZoneId_from_requests in Hrun
    as (n & Hn & Htrace & Hout & Hret).
  exists n. split; [exact Hn|]. split; [exact Htrace|].
  split; [|split; assumption].
  intros Hmax. rewrite page_walk_small; [|unfold int32_min; lia|lia].
  rewrite <- seq_shift, map_map. apply map_ext. intros j. lia.
Qed.

Lemma resolveZoneId_from_outcome (zoneName domain : string) (fuel : nat) :
  forall (i : Z) (s s' : St W) (r : Outcome Z),
    resolveZoneId_from fuel client zoneName domain i s = (r, s') ->
    r = OutOfFuel
    \/ exists (p : Z) (w : W) (answer : error + DNSZones) (before : list Call),
         DNSZone_List client (page_opts p) w = (answer, world s')
         /\ trace s' = before ++ [CallList (page_opts p)]
         /\ match r, answer with
            | Ok id, inr zs =>
                exists z,
                  find (isZone domain) (Items zs) = Some z
                  /\ zone_ID z = id
                  /\ zone_Domain z = domain
            | Err e, inl e' => e = e'
            | Err e, inr zs =>
                find (isZone domain) (Items zs) = None
                /\ HasMoreItems zs = false
                /\ e = "failed to get zone id from zone name: " +:+ zoneName
            | _, _ => False
            end.
Proof.
  induction fuel as [|fuel IH]; intros i s s' r.
  - intros [= <- <-]. now left.
  - rewrite loop_step.
    destruct (DNSZone_List client (page_opts i) (world s)) as [[e|zs] w'] eqn:E.
    + intros [= <- <-]. right. exists i, (world s), (inl e), (trace s).
      now repeat split.
    + destruct (find (isZone domain) (Items zs)) as [z|] eqn:F.
      * intros [= <- <-]. right. exists i, (world s), (inr zs), (trace s).
        split; [exact E|]. split; [reflexivity|].
        exists z. split; [exact F|]. split; [reflexivity|].
        apply isZone_eq. now apply find_some in F.
      * destruct (HasMoreItems zs) eqn:M.
        -- apply IH.
        -- intros [= <- <-]. right. exists i, (world s), (inr zs), (trace s).
           now repeat split.
Qed.

(** X11.  In any world, what [resolveZoneId] returns is decided by the
    answer to its last request.  An identifier is that of the first zone of
    that answer whose domain equals the target; the zone-not-found error
    comes only after an answer without the target that announces no more
    items; any other error is the error of that last request. *)
Theorem resolveZoneId_outcome
    (fuel : nat) (zoneName : string) (s s' : St W) (r : Outcome Z) :
  resolveZoneId fuel client zoneName s = (r, s') ->
  r = OutOfFuel
  \/ exists (p : Z) (w : W) (answer : error + DNSZones) (before : list Call),
       DNSZone_List client (page_opts p) w = (answer, world s')
       /\ trace s' = before ++ [CallList (page_opts p)]
       /\ match r, answer with
          | Ok id, inr zs =>
              exists z,
                find (isZone (strings.TrimSuffix zoneName ".")) (Items zs)
                = Some z
                /\ zone_ID z = id
                /\ zone_Domain z = strings.TrimSuffix zoneName "."
          | Err e, inl e' => e = e'
          | Err e, inr zs =>
              find (isZone (strings.TrimSuffix zoneName ".")) (Items zs) = None
              /\ HasMoreItems zs = false
              /\ e = "failed to get zone id from zone name: " +:+ zoneName
          | _, _ => False
          end.
Proof. apply resolveZoneId_from_outcome. Qed.

Lemma resolveZoneId_from_name (zoneName1 zoneName2 domain : string)
    (fuel : nat) :
  forall (i : Z) (s : St W),
    snd (resolveZoneId_from fuel client zoneName1 domain i s)
    = snd (resolveZoneId_from fuel client zoneName2 domain i s)
    /\ same_zone (fst (resolveZoneId_from fuel client zoneName1 domain i s))
                 (fst (resolveZoneId_from fuel client zoneName2 domain i s)).
Proof.
  induction fuel as [|fuel IH]; intros i s; [now split|].
  rewrite !loop_step.
  destruct (DNSZone_List client (page_opts i) (world s)) as [[e|zs] w'];
    [now split|].
  destruct (find (isZone domain) (Items zs)); [now split|].
  destruct (HasMoreItems zs); [apply IH|now split].
Qed.

(** X12.  The resolver takes the zone name with or without its trailing
    dot: for a name [d] that does not end with a dot, the runs on [d] and
    on [d] followed by a dot issue the same requests, end in the same
    world, and return the same identifier or both fail. *)
Theorem resolveZoneId_trailing_dot (fuel : nat) (d : string) (s : St W) :
  (forall p, d <> p +:+ ".") ->
  snd (resolveZoneId fuel client (d +:+ ".") s)
  = snd (resolveZoneId fuel client d s)
  /\ same_zone (fst (resolveZoneId fuel client (d +:+ ".") s))
               (fst (resolveZoneId fuel client d s)).
Proof.
  intros Hbare. unfold resolveZoneId.
  rewrite strings_facts.TrimSuffix_app.
  destruct (strings_facts.TrimSuffix_cases d ".") as [Hdot|[-> _]].
  - now destruct (Hbare (strings.TrimSuffix d ".")).
  - apply resolveZoneId_from_name.
Qed.

End ResolverAnyWorld.

Lemma string_app_assoc (a b c : string) : (a +:+ b) +:+ c = a +:+ (b +:+ c).
Proof.
  induction a as [|x a IH]; [reflexivity|].
  rewrite !strings_facts.app_cons. now rewrite IH.
Qed.

(** X13.  For a challenge name made of a label, a dot and the zone, the
    record name that both handlers derive is the label, whatever the label
    and the zone; for a challenge name equal to the zone it is empty. *)
Theorem recordName_label (ch : ChallengeRequest) :
  (forall label,
      ResolvedFQDN ch = label +:+ "." +:+ ResolvedZone ch ->
      recordName ch = label)
  /\ (ResolvedFQDN ch = ResolvedZone ch -> recordName ch = "").
Proof.
  unfold recordName. split.
  - intros label ->. rewrite <- string_app_assoc.
    now rewrite !strings_facts.TrimSuffix_app.
  - intros ->.
    pose proof (strings_facts.TrimSuffix_app "" (ResolvedZone ch)) as Hz.
    change ("" +:+ ResolvedZone ch) with (ResolvedZone ch) in Hz.
    now rewrite Hz.
Qed.

(** ** Creation followed by clean-up, on the reference world *)

Lemma update_zone_twice (zoneID : Z) (f g : list DNSRecord -> list DNSRecord)
    (zs : list DNSZone) :
  Provider.update_zone zoneID (Provider.with_records g)
    (Provider.update_zone zoneID (Provider.with_records f) zs)
  = Provider.update_zone zoneID (Provider.with_records (fun rs => g (f rs))) zs.
Proof.
  induction zs as [|z zs IH]; [reflexivity|]. cbn.
  destruct (Provider.has_id zoneID z) eqn:E; cbn.
  - unfold Provider.has_id in *. cbn. now rewrite E.
  - now rewrite E, IH.
Qed.

Lemma update_zone_same (zoneID : Z) (f : list DNSRecord -> list DNSRecord)
    (zs : list DNSZone) (z : DNSZone) :
  find (Provider.has_id zoneID) zs = Some z ->
  f (zone_Records z) = zone_Records z ->
  Provider.update_zone zoneID (Provider.with_records f) zs = zs.
Proof.
  induction zs as [|z0 zs IH]; [discriminate|]. cbn.
  destruct (Provider.has_id zoneID z0).
  - intros [= ->] Hf. unfold Provider.with_records. rewrite Hf.
    now destruct z.
  - intros Hfind Hf. f_equal. now apply IH.
Qed.

Lemma filter_keep_all (recordID : Z) (rs : list DNSRecord) :
  (forall r, In r rs -> rec_ID r <> recordID) ->
  List.filter (Provider.keep_record recordID) rs = rs.
Proof.
  induction rs as [|r rs IH]; intros Hall; [reflexivity|]. cbn.
  unfold Provider.keep_record at 1.
  assert (Hr : Z.eqb (rec_ID r) recordID = false)
    by (apply Z.eqb_neq, Hall; now left).
  rewrite Hr. cbn. f_equal. apply IH. intros r' Hin. apply Hall. now right.
Qed.

Section RoundTrip.

Context `{Provider.Decoder}.

Lemma provider_delete (client : Client) (zoneID recordID : Z)
    (w : Provider.t) (zone : DNSZone) :
  String.eqb (client_AccessKey client) (Provider.access_key w) = true ->
  find (Provider.has_id zoneID) (Provider.zones w) = Some zone ->
  existsb (fun r => Z.eqb (rec_ID r) recordID) (zone_Records zone) = true ->
  DNSZone_DeleteDNSRecord client zoneID recordID w
  = (None,
     {| Provider.secrets := Provider.secrets w;
        Provider.access_key := Provider.access_key w;
        Provider.zones :=
          Provider.update_zone zoneID
            (Provider.with_records (List.filter (Provider.keep_record recordID)))
            (Provider.zones w);
        Provider.next_record_id := Provider.next_record_id w |}).
Proof.
  intros Hkey Hfind Hex. cbn. unfold Provider.delete_record.
  now rewrite Hkey, Hfind, Hex.
Qed.

(** X14.  On the reference world, when no record bears the identifier the
    provider hands out next: after a [Present] that succeeded and created
    the record, the [CleanUp] of the same challenge succeeds, issues one
    delete call, for the identifier of the created record, and leaves the
    zones of the account as they were before [Present]. *)
Theorem Present_CleanUp_round_trip
    (fuel : nat) (ch : ChallengeRequest) (w : Provider.t) (t : list Call)
    (sP : St Provider.t) :
  fresh_id w ->
  Present fuel ch (mkSt w t) = (Ok tt, sP) ->
  creations (trace sP) <> creations t ->
  exists (sC : St Provider.t) (zoneID : Z),
    CleanUp fuel ch sP = (Ok tt, sC)
    /\ deletions (trace sC)
       = deletions t ++ [(zoneID, Provider.next_record_id w)]
    /\ Provider.zones (world sC) = Provider.zones w.
Proof.
  intros Hfresh Hrun Hcreated.
  destruct (Present_ok_inv _ _ _ _ Hrun)
    as (client & sa & zoneID & sb & zone & w3 & Hclient & Hzone & Hget).
  destruct (provider_lookup _ _ _ _ _ _ _ _ Hclient Hzone)
    as (c1 & c2 & -> & -> & [Hc1 Hd1] & [Hc2 Hd2] & Hsame).
  cbn [world trace] in *.
  apply provider_get in Hget as Hget'. destruct Hget' as (-> & Hkey & Hfind).
  rewrite (Present_run fuel ch _ _ _ client zoneID zone w Hclient Hzone Hget)
    in Hrun.
  destruct (find (isTXTRecord (recordName ch) (Key ch)) (zone_Records zone))
    as [r|] eqn:Hmatch.
  - injection Hrun as <-. cbn [trace] in Hcreated.
    rewrite !creations_app, Hc1, Hc2 in Hcreated. cbn in Hcreated.
    rewrite !app_nil_r in Hcreated. now destruct Hcreated.
  - cbn zeta in Hrun.
    rewrite (provider_add ch client zoneID w zone Hkey Hfind) in Hrun.
    injection Hrun as <-. cbn [world trace].
    set (created := txt_record ch (Provider.next_record_id w)).
    set (tP := (t ++ c1 ++ c2)
               ++ [CallGet zoneID; CallAddDNSRecord zoneID (txt_options ch)]).
    destruct (Hsame (after_add ch zoneID w) tP
                (after_add_directory ch zoneID w)) as [Hclient2 Hzone2].
    pose proof (after_add_zone ch zoneID w zone Hfind) as Hfind2.
    fold created in Hfind2.
    pose proof (provider_get_found client zoneID (after_add ch zoneID w) _
                  Hkey Hfind2) as Hget2.
    assert (Hmatch2 :
              find (isTXTRecord (recordName ch) (Key ch))
                   (zone_Records zone ++ [created]) = Some created)
      by (apply find_snoc; [exact Hmatch|apply isTXTRecord_txt_record]).
    assert (Hex : existsb (fun r => Z.eqb (rec_ID r) (Provider.next_record_id w))
                          (zone_Records zone ++ [created]) = true).
    { rewrite existsb_app. cbn. now rewrite Z.eqb_refl, orb_true_r. }
    pose proof (provider_delete client zoneID (Provider.next_record_id w)
                  (after_add ch zoneID w) _ Hkey Hfind2 Hex) as Hdel.
    eexists _, zoneID. split.
    { rewrite (CleanUp_run fuel ch _ _ _ client zoneID _ _
                 Hclient2 Hzone2 Hget2).
      cbn [zone_Records Provider.with_records]. rewrite Hmatch2. cbn zeta.
      change (rec_ID created) with (Provider.next_record_id w).
      rewrite Hdel. reflexivity. }
    cbn [world trace Provider.zones]. split.
    + unfold tP. rewrite !deletions_app, Hd1, Hd2. cbn.
      now rewrite !app_nil_r.
    + unfold after_add. cbn [Provider.zones]. rewrite update_zone_twice.
      apply (update_zone_same _ _ _ zone Hfind).
      rewrite List.filter_app. cbn.
      unfold Provider.keep_record at 2. cbn [rec_ID txt_record].
      rewrite Z.eqb_refl. cbn. rewrite app_nil_r.
      apply filter_keep_all. intros r Hin.
      apply (Hfresh zone r); [|exact Hin].
      now apply find_some in Hfind.
Qed.

End RoundTrip.

Lemma resolveZoneId_requests_witness :
  exists n : nat,
    (n <= 5)%nat
    /\ trace (snd (@resolveZoneId _ Example.env 5 Example.client
                     "example.com." Example.start))
       = map (fun p => CallList {| Page := p; PerPage := 3 |}) (page_walk 1 n)
    /\ (1 <= n)%nat.
Proof.
  destruct (@resolveZoneId_requests _ Example.env Example.client 5
              "example.com." Example.start
              (snd (@resolveZoneId _ Example.env 5 Example.client
                      "example.com." Example.start))
              (Ok 14) eq_refl) as (n & Hn & Htrace & _ & _ & Hret).
  exists n. split; [exact Hn|]. split; [exact Htrace|].
  apply Hret. discriminate.
Defined.

Lemma resolveZoneId_outcome_witness :
  exists (p : Z) (zs : DNSZones) (z : DNSZone),
    @DNSZone_List _ Example.env Example.client (page_opts p) Example.world0
    = (inr zs, Example.world0)
    /\ find (isZone "example.com") (Items zs) = Some z
    /\ zone_ID z = 14.
Proof.
  destruct (@resolveZoneId_outcome _ Example.env Example.client 5
              "example.com." Example.start
              (mkSt Example.world0 (page_requests 2)) (Ok 14) eq_refl)
    as [Hout | (p & w & answer & before & Hlist & Htrace & Hlast)];
    [discriminate|].
  destruct answer as [e|zs]; [destruct Hlast|].
  destruct Hlast as (z & Hfind & Hid & _).
  assert (Hp : p = 2).
  { change (page_requests 2)
      with ([CallList (page_opts 1)] ++ [CallList (page_opts 2)]) in Htrace.
    cbn [trace] in Htrace. apply app_inj_tail in Htrace as [_ Hp].
    now injection Hp. }
  subst p. exists 2, zs, z. split; [|split; [exact Hfind|exact Hid]].
  cbn in Hlist |- *. unfold Provider.list_zones in Hlist |- *.
  destruct (String.eqb (client_AccessKey Example.client)
                       (Provider.access_key w)); [|discriminate].
  cbn [world] in Hlist. injection Hlist as Hzs Hw. subst w.
  rewrite <- Hzs. reflexivity.
Defined.

Lemma example_bare (p : string) : "example.com" <> p +:+ ".".
Proof.
  intros Hp.
  assert (Hs : strings.HasSuffix "example.com" "." = true)
    by (apply strings_facts.HasSuffix_iff; now exists p).
  vm_compute in Hs. discriminate.
Qed.

Lemma resolveZoneId_trailing_dot_witness :
  snd (@resolveZoneId _ Example.env 5 Example.client "example.com."
         Example.start)
  = snd (@resolveZoneId _ Example.env 5 Example.client "example.com"
           Example.start).
Proof.
  exact (proj1 (@resolveZoneId_trailing_dot _ Example.env Example.client 5
                  "example.com" Example.start example_bare)).
Defined.

Lemma recordName_label_witness :
  recordName Example.challenge = "_acme-challenge".
Proof.
  exact (proj1 (recordName_label Example.challenge) "_acme-challenge" eq_refl).
Defined.

Lemma example_fresh : fresh_id Example.world0.
Proof.
  intros z r Hz Hr. cbn in Hz.
  repeat (destruct Hz as [<- | Hz]; [cbn in Hr|]); try contradiction;
    destruct Hr as [<- | []]; discriminate.
Qed.

Lemma Present_CleanUp_round_trip_witness :
  exists (sC : St Provider.t) (zoneID : Z),
    @CleanUp _ Example.env 5 Example.challenge
      (snd (@Present _ Example.env 5 Example.challenge Example.start))
    = (Ok tt, sC)
    /\ deletions (trace sC) = [(zoneID, 100)]
    /\ Provider.zones (world sC) = Provider.zones Example.world0.
Proof.
  refine (@Present_CleanUp_round_trip Example.decode 5 Example.challenge
            Example.world0 []
            (snd (@Present _ Example.env 5 Example.challenge Example.start))
            example_fresh eq_refl _).
  discriminate.
Defined.
